(** * pkg/skel: the plugin dispatcher of the CNI skeleton

    A shallow embedding of [src/pkg/skel/skel.go] and the properties of its
    request extraction, configuration validation, version reconciliation and
    handler dispatch.

    Go strings and byte slices are both sequences of bytes and are both
    modelled by [string].  Code that reads or writes a stream, or that calls
    a plugin handler, is written in a small state monad over a [World] that
    holds the stream objects; a nil dereference is the outcome [Panics]. *)

From stdpp Require Import base option list strings gmap.
From Stdlib Require Import Ascii String NArith Lia.

Open Scope string_scope.
Set Warnings "-register-all".

(** ** encoding/json

    [json.Unmarshal] as the skeleton uses it: decoding a document into a
    struct that has one string field.  The document is first checked as a
    whole against the JSON grammar, then stored into the struct. *)
Module json.

Inductive Value : Type :=
| Null
| Bool (b : bool)
| Number (lit : string)
| Str (s : string)
| Array (elems : list Value)
| Object (members : list (string * Value)).

(** A step of the scanner: a value and the unread input, a grammar error,
    or exhausted recursion fuel. *)
Inductive Parsed (A : Type) : Type :=
| Ok (a : A) (rest : string)
| Invalid
| OutOfFuel.
Arguments Ok {A} a rest.
Arguments Invalid {A}.
Arguments OutOfFuel {A}.

(** The two errors [Unmarshal] returns: the input is not JSON, or a JSON
    value of kind [value] cannot be stored in the Go value it meets. *)
Inductive Error : Type :=
| SyntaxError
| UnmarshalTypeError (value : string).

Definition quote : ascii := "034"%char.
Definition backslash : ascii := "092"%char.

Definition code (c : ascii) : N := N_of_ascii c.

Definition between (lo hi : N) (c : ascii) : bool :=
  ((lo <=? code c) && (code c <=? hi))%N.

Definition isSpace (c : ascii) : bool :=
  match code c with
  | 32%N | 9%N | 13%N | 10%N => true
  | _ => false
  end.

Definition isDigit (c : ascii) : bool := between 48 57 c.

Fixpoint skipSpace (s : string) : string :=
  match s with
  | String c s' => if isSpace c then skipSpace s' else s
  | EmptyString => s
  end.

Definition hexDigit (c : ascii) : option N :=
  if between 48 57 c then Some (code c - 48)%N
  else if between 97 102 c then Some (code c - 87)%N
  else if between 65 70 c then Some (code c - 55)%N
  else None.

Definition hex4 (a b c d : ascii) : option N :=
  match hexDigit a, hexDigit b, hexDigit c, hexDigit d with
  | Some x, Some y, Some z, Some w => Some (((x * 16 + y) * 16 + z) * 16 + w)%N
  | _, _, _, _ => None
  end.

(** What a string literal is made of: a byte (written as itself or as a
    one-letter escape) or a [\uXXXX] escape. *)
Inductive Piece : Type :=
| Raw (c : ascii)
| Esc (cp : N).

Definition consPiece (p : Piece) (r : option (list Piece * string)) :
  option (list Piece * string) :=
  match r with
  | Some (ps, rest) => Some (p :: ps, rest)
  | None => None
  end.

Definition escaped (e : ascii) : option ascii :=
  match code e with
  | 34%N | 92%N | 47%N => Some e
  | 98%N => Some "008"%char
  | 102%N => Some "012"%char
  | 110%N => Some "010"%char
  | 114%N => Some "013"%char
  | 116%N => Some "009"%char
  | _ => None
  end.

(** The scanner inside a string literal, after its opening quote: up to
    and including the closing quote.  Bytes below 0x20 are refused. *)
Fixpoint pieces (s : string) : option (list Piece * string) :=
  match s with
  | EmptyString => None
  | String c s1 =>
      if Ascii.eqb c quote then Some ([], s1)
      else if Ascii.eqb c backslash then
        match s1 with
        | EmptyString => None
        | String e s2 =>
            if Ascii.eqb e "u"%char then
              match s2 with
              | String h1 (String h2 (String h3 (String h4 s6))) =>
                  match hex4 h1 h2 h3 h4 with
                  | Some cp => consPiece (Esc cp) (pieces s6)
                  | None => None
                  end
              | _ => None
              end
            else
              match escaped e with
              | Some b => consPiece (Raw b) (pieces s2)
              | None => None
              end
        end
      else if (code c <? 32)%N then None
      else consPiece (Raw c) (pieces s1)
  end.

Definition byte (n : N) : ascii := ascii_of_N n.

Definition str1 (a : N) : string := String (byte a) EmptyString.

(** utf8.EncodeRune; a surrogate half or a value above U+10FFFF is
    written as U+FFFD. *)
Definition replacement : string :=
  String (byte 239) (String (byte 191) (String (byte 189) EmptyString)).

Definition encodeRune (r : N) : string :=
  (if r <? 128 then str1 r
   else if r <? 2048 then str1 (192 + r / 64) ++ str1 (128 + r mod 64)
   else if (55296 <=? r) && (r <=? 57343) then replacement
   else if r <? 65536 then
     str1 (224 + r / 4096) ++ str1 (128 + (r / 64) mod 64) ++ str1 (128 + r mod 64)
   else if r <=? 1114111 then
     str1 (240 + r / 262144) ++ str1 (128 + (r / 4096) mod 64)
       ++ str1 (128 + (r / 64) mod 64) ++ str1 (128 + r mod 64)
   else replacement)%N.

Definition isCont (c : ascii) : bool := between 128 191 c.

(** The range of the second byte of a UTF-8 sequence and the number of
    bytes that follow the first one, by first byte (utf8.DecodeRune). *)
Definition lead (c : ascii) : option (N * N * nat) :=
  let n := code c in
  (if (194 <=? n) && (n <=? 223) then Some (128, 191, 1%nat)
   else if n =? 224 then Some (160, 191, 2%nat)
   else if n =? 237 then Some (128, 159, 2%nat)
   else if (225 <=? n) && (n <=? 239) then Some (128, 191, 2%nat)
   else if n =? 240 then Some (144, 191, 3%nat)
   else if (241 <=? n) && (n <=? 243) then Some (128, 191, 3%nat)
   else if n =? 244 then Some (128, 143, 3%nat)
   else None)%N.

(** unquote: the bytes a scanned literal stands for.  Two [\u] escapes
    that form a surrogate pair give one rune, a lone half gives U+FFFD;
    bytes that are not well-formed UTF-8 are replaced by U+FFFD one at a
    time. *)
Fixpoint unquote (ps : list Piece) : string :=
  match ps with
  | [] => EmptyString
  | Esc hi :: tl =>
      if ((55296 <=? hi) && (hi <=? 57343))%N then
        match tl with
        | Esc lo :: tl2 =>
            if ((hi <? 56320) && (56320 <=? lo) && (lo <=? 57343))%N
            then encodeRune (65536 + (hi - 55296) * 1024 + (lo - 56320))%N
                   ++ unquote tl2
            else replacement ++ unquote tl
        | _ => replacement ++ unquote tl
        end
      else encodeRune hi ++ unquote tl
  | Raw c :: tl =>
      if (code c <? 128)%N then String c (unquote tl)
      else
        match lead c with
        | Some (lo, hi, 1%nat) =>
            match tl with
            | Raw c1 :: tl1 =>
                if between lo hi c1
                then String c (String c1 (unquote tl1))
                else replacement ++ unquote tl
            | _ => replacement ++ unquote tl
            end
        | Some (lo, hi, 2%nat) =>
            match tl with
            | Raw c1 :: Raw c2 :: tl2 =>
                if between lo hi c1 && isCont c2
                then String c (String c1 (String c2 (unquote tl2)))
                else replacement ++ unquote tl
            | _ => replacement ++ unquote tl
            end
        | Some (lo, hi, _) =>
            match tl with
            | Raw c1 :: Raw c2 :: Raw c3 :: tl3 =>
                if between lo hi c1 && isCont c2 && isCont c3
                then String c (String c1 (String c2 (String c3 (unquote tl3))))
                else replacement ++ unquote tl
            | _ => replacement ++ unquote tl
            end
        | None => replacement ++ unquote tl
        end
  end.

(** A string literal after its opening quote. *)
Definition stringLit (s : string) : Parsed string :=
  match pieces s with
  | Some (ps, rest) => Ok (unquote ps) rest
  | None => Invalid
  end.

Fixpoint digits (s : string) : string * string :=
  match s with
  | String c s' =>
      if isDigit c then let '(ds, rest) := digits s' in (String c ds, rest)
      else (EmptyString, s)
  | EmptyString => (EmptyString, s)
  end.

(** One or more digits. *)
Definition digits1 (s : string) : option (string * string) :=
  match digits s with
  | (EmptyString, _) => None
  | (ds, rest) => Some (ds, rest)
  end.

(** The integer part: a single 0, or a digit 1-9 and more digits. *)
Definition intPart (s : string) : option (string * string) :=
  match s with
  | String c s' =>
      if Ascii.eqb c "0"%char then Some (String c EmptyString, s')
      else if between 49 57 c then
        let '(ds, rest) := digits s' in Some (String c ds, rest)
      else None
  | EmptyString => None
  end.

Definition fracPart (s : string) : option (string * string) :=
  match s with
  | String c s' =>
      if Ascii.eqb c "."%char then
        match digits1 s' with
        | Some (ds, rest) => Some (String c ds, rest)
        | None => None
        end
      else Some (EmptyString, s)
  | EmptyString => Some (EmptyString, s)
  end.

Definition expPart (s : string) : option (string * string) :=
  match s with
  | String c s' =>
      if Ascii.eqb c "e"%char || Ascii.eqb c "E"%char then
        match s' with
        | String g s'' =>
            if Ascii.eqb g "+"%char || Ascii.eqb g "-"%char then
              match digits1 s'' with
              | Some (ds, rest) => Some (String c (String g ds), rest)
              | None => None
              end
            else
              match digits1 s' with
              | Some (ds, rest) => Some (String c ds, rest)
              | None => None
              end
        | EmptyString => None
        end
      else Some (EmptyString, s)
  | EmptyString => Some (EmptyString, s)
  end.

Definition unsignedLit (s : string) : option (string * string) :=
  match intPart s with
  | Some (i, r1) =>
      match fracPart r1 with
      | Some (f, r2) =>
          match expPart r2 with
          | Some (e, r3) => Some (i ++ f ++ e, r3)
          | None => None
          end
      | None => None
      end
  | None => None
  end.

(** A number literal, the input starting at its first character. *)
Definition numberLit (s : string) : Parsed string :=
  match s with
  | String c s' =>
      if Ascii.eqb c "-"%char then
        match unsignedLit s' with
        | Some (l, rest) => Ok (String c l) rest
        | None => Invalid
        end
      else
        match unsignedLit s with
        | Some (l, rest) => Ok l rest
        | None => Invalid
        end
  | EmptyString => Invalid
  end.

(** [word w v s]: the literal [w] at the head of [s] is the value [v]. *)
Definition word (w : string) (v : Value) (s : string) : Parsed Value :=
  if String.prefix w s
  then Ok v (String.substring (String.length w) (String.length s - String.length w) s)
  else Invalid.

(** The grammar.  [value] reads one value after optional white space;
    [elements] reads the rest of an array from its next element on,
    [members] the rest of an object from its next key on. *)
Fixpoint value (fuel : nat) (s : string) : Parsed Value :=
  match fuel with
  | O => OutOfFuel
  | S fuel =>
      match skipSpace s with
      | EmptyString => Invalid
      | String c r as s0 =>
          if Ascii.eqb c "{"%char then
            match skipSpace r with
            | String c' r' as r0 =>
                if Ascii.eqb c' "}"%char then Ok (Object []) r'
                else
                  match members fuel r0 with
                  | Ok ms rest => Ok (Object ms) rest
                  | Invalid => Invalid
                  | OutOfFuel => OutOfFuel
                  end
            | EmptyString => Invalid
            end
          else if Ascii.eqb c "["%char then
            match skipSpace r with
            | String c' r' as r0 =>
                if Ascii.eqb c' "]"%char then Ok (Array []) r'
                else
                  match elements fuel r0 with
                  | Ok vs rest => Ok (Array vs) rest
                  | Invalid => Invalid
                  | OutOfFuel => OutOfFuel
                  end
            | EmptyString => Invalid
            end
          else if Ascii.eqb c quote then
            match stringLit r with
            | Ok str rest => Ok (Str str) rest
            | Invalid => Invalid
            | OutOfFuel => OutOfFuel
            end
          else if Ascii.eqb c "t"%char then word "true" (Bool true) s0
          else if Ascii.eqb c "f"%char then word "false" (Bool false) s0
          else if Ascii.eqb c "n"%char then word "null" Null s0
          else if Ascii.eqb c "-"%char || isDigit c then
            match numberLit s0 with
            | Ok l rest => Ok (Number l) rest
            | Invalid => Invalid
            | OutOfFuel => OutOfFuel
            end
          else Invalid
      end
  end
with elements (fuel : nat) (s : string) : Parsed (list Value) :=
  match fuel with
  | O => OutOfFuel
  | S fuel =>
      match value fuel s with
      | Ok v r1 =>
          match skipSpace r1 with
          | String c r2 =>
              if Ascii.eqb c "]"%char then Ok [v] r2
              else if Ascii.eqb c ","%char then
                match elements fuel r2 with
                | Ok vs rest => Ok (v :: vs) rest
                | Invalid => Invalid
                | OutOfFuel => OutOfFuel
                end
              else Invalid
          | EmptyString => Invalid
          end
      | Invalid => Invalid
      | OutOfFuel => OutOfFuel
      end
  end
with members (fuel : nat) (s : string) : Parsed (list (string * Value)) :=
  match fuel with
  | O => OutOfFuel
  | S fuel =>
      match skipSpace s with
      | String q r0 =>
          if Ascii.eqb q quote then
            match stringLit r0 with
            | Ok key r1 =>
                match skipSpace r1 with
                | String c r2 =>
                    if Ascii.eqb c ":"%char then
                      match value fuel r2 with
                      | Ok v r3 =>
                          match skipSpace r3 with
                          | String d r4 =>
                              if Ascii.eqb d "}"%char then Ok [(key, v)] r4
                              else if Ascii.eqb d ","%char then
                                match members fuel r4 with
                                | Ok ms rest => Ok ((key, v) :: ms) rest
                                | Invalid => Invalid
                                | OutOfFuel => OutOfFuel
                                end
                              else Invalid
                          | EmptyString => Invalid
                          end
                      | Invalid => Invalid
                      | OutOfFuel => OutOfFuel
                      end
                    else Invalid
                | EmptyString => Invalid
                end
            | Invalid => Invalid
            | OutOfFuel => OutOfFuel
            end
          else Invalid
      | EmptyString => Invalid
      end
  end.

(** Enough fuel for any input: every second call at least reads a byte. *)
Definition fuelFor (data : string) : nat := 2 * String.length data + 3.

(** The whole input is one value between optional white space. *)
Definition parse (data : string) : Parsed Value :=
  match value (fuelFor data) data with
  | Ok v rest =>
      match skipSpace rest with
      | EmptyString => Ok v EmptyString
      | String _ _ => Invalid
      end
  | Invalid => Invalid
  | OutOfFuel => OutOfFuel
  end.

Definition lower (c : ascii) : ascii :=
  if between 65 90 c then byte (code c + 32) else c.

Fixpoint lowerString (s : string) : string :=
  match s with
  | String c s' => String (lower c) (lowerString s')
  | EmptyString => EmptyString
  end.

(** A key names a field when it equals the field's JSON name or differs
    from it in letter case only.  (For a name that has no k and no s in
    it, as [name] has none, this is all of Go's case folding.) *)
Definition equalFold (name key : string) : bool :=
  String.eqb (lowerString name) (lowerString key).

Definition kind (v : Value) : string :=
  match v with
  | Null => "null"
  | Bool _ => "bool"
  | Number _ => "number"
  | Str _ => "string"
  | Array _ => "array"
  | Object _ => "object"
  end.

Definition saveError (saved : option Error) (e : Error) : option Error :=
  match saved with
  | Some _ => saved
  | None => Some e
  end.

(** Storing a value in a string field: a string is stored, null leaves
    the field as it is, anything else is a type error. *)
Definition storeString (v : Value) (cur : string) (saved : option Error) :
  option Error * string :=
  match v with
  | Str s => (saved, s)
  | Null => (saved, cur)
  | _ => (saveError saved (UnmarshalTypeError (kind v)), cur)
  end.

(** The members of an object, in order, into a struct whose one field has
    the JSON name [name]: other keys are skipped, the first type error is
    kept and decoding goes on. *)
Fixpoint storeMembers (name : string) (ms : list (string * Value))
  (cur : string) (saved : option Error) : option Error * string :=
  match ms with
  | [] => (saved, cur)
  | (key, v) :: ms' =>
      if equalFold name key
      then let '(saved', cur') := storeString v cur saved in
           storeMembers name ms' cur' saved'
      else storeMembers name ms' cur saved
  end.

(** Storing a document in the struct: an object by its members, null
    changes nothing, any other value is a type error. *)
Definition storeStruct (name : string) (v : Value) (cur : string) :
  option Error * string :=
  match v with
  | Object ms => storeMembers name ms cur None
  | Null => (None, cur)
  | _ => (Some (UnmarshalTypeError (kind v)), cur)
  end.

(** [Unmarshal name data cur]: [json.Unmarshal(data, &conf)] where [conf]
    has one string field of JSON name [name] holding [cur]; the error
    returned and the field afterwards.  Input that is not JSON leaves the
    struct alone. *)
Definition Unmarshal (name : string) (data : string) (cur : string) :
  option Error * string :=
  match parse data with
  | Ok v _ => storeStruct name v cur
  | Invalid | OutOfFuel => (Some SyntaxError, cur)
  end.

End json.

(** ** The text of library errors

    The skeleton copies [err.Error()] of errors made by encoding/json and
    by the version package into its own messages.  Their wording belongs
    to those libraries and is kept abstract. *)
Class ErrorTexts : Type := {
  (** the text of the error [json.Unmarshal] returns on [data] *)
  jsonErrorText : string -> json.Error -> string;
  (** the text of the error for a version string that does not parse *)
  versionErrorText : string -> string
}.

(** ** pkg/types: the error model *)
Module types.

(** Modelled from the spec: the error codes of pkg/types, which is not
    under src/.  They are distinct constants; the names are those
    [skel.go] uses, and [ErrInternal] is the generic fallback of the
    spec's list. *)
Inductive ErrorCode : Type :=
| ErrMissingEnvironmentVariables
| ErrFailedIO
| ErrFailedDecode
| ErrFailedEncode
| ErrInvalidNetworkConfig
| ErrIncompatibleCNIVersion
| ErrUnknownCommand
| ErrFailedPluginCall
| ErrInternal.

Record Error : Type := { Code : ErrorCode; Msg : string; Details : string }.

(** Modelled from the spec: [types.NewError(code, msg, details)] of
    pkg/types; it fills the three fields in this order (the call sites in
    [skel.go] pass a fixed message second and [verErr.Details()] third). *)
Definition NewError (code : ErrorCode) (msg details : string) : Error :=
  {| Code := code; Msg := msg; Details := details |}.

End types.

(** ** Streams, the world and the monad of effects *)

(** An [io.Reader] object: the bytes it has not delivered yet, and the
    error its [Read] reports in place of the end of the stream, if any. *)
Record Reader : Type := { pending : string; failure : option string }.

(** The objects a dispatcher and the plugin's handlers act on: readers and
    writers live in stores and are referred to by their index (an index
    outside the store is a nil or dangling reference); a writer is the
    bytes written to it so far; [user] is whatever else handlers touch. *)
Record World (U : Type) : Type :=
  { readers : list Reader; writers : list string; user : U }.
Arguments readers {U} _.
Arguments writers {U} _.
Arguments user {U} _.

Inductive Outcome (S A : Type) : Type :=
| Returns (a : A) (s : S)
| Panics.
Arguments Returns {S A} a s.
Arguments Panics {S A}.

Definition M (U A : Type) : Type := World U -> Outcome (World U) A.

Definition ret {U A : Type} (a : A) : M U A := fun w => Returns a w.

Definition bind {U A B : Type} (m : M U A) (k : A -> M U B) : M U B :=
  fun w =>
    match m w with
    | Returns a w' => k a w'
    | Panics => Panics
    end.

Definition panic {U A : Type} : M U A := fun _ => Panics.

Notation "'let*' x ':=' m 'in' k" := (bind m (fun x => k))
  (at level 10, x pattern, m at level 100, k at level 200).

(** Dereferencing a pointer that may be nil. *)
Definition deref {U A : Type} (p : option A) : M U A :=
  match p with
  | Some a => ret a
  | None => panic
  end.

(** [ioutil.ReadAll(r)]: everything the reader still holds and the error
    that stopped the reading; the reader is left drained. *)
Definition ReadAll {U : Type} (r : nat) : M U (string * option string) :=
  fun w =>
    match readers w !! r with
    | Some rd =>
        Returns (pending rd, failure rd)
          {| readers := <[r := {| pending := EmptyString; failure := failure rd |}]> (readers w);
             writers := writers w;
             user := user w |}
    | None => Panics
    end.

(** [bytes.NewReader(b)]: a new reader object over [b]. *)
Definition NewReader {U : Type} (b : string) : M U nat :=
  fun w =>
    Returns (List.length (readers w))
      {| readers := (readers w ++ [{| pending := b; failure := None |}])%list;
         writers := writers w;
         user := user w |}.

Definition newline : string := String "010"%char EmptyString.

(** [fmt.Fprintln(wr, s)], its result dropped as the caller drops it. *)
Definition Fprintln {U : Type} (wr : nat) (s : string) : M U unit :=
  fun w =>
    match writers w !! wr with
    | Some out =>
        Returns tt
          {| readers := readers w;
             writers := <[wr := out ++ s ++ newline]> (writers w);
             user := user w |}
    | None => Panics
    end.

(** A Go [error] value as a handler returns it: a [*types.Error] (which
    may be a nil pointer inside a non-nil interface value) or an error of
    any other type, known by its [Error()] text. *)
Inductive error : Type :=
| TypesError (e : option types.Error)
| OtherError (msg : string).

(** ** pkg/version *)
Module version.

(** [version.PluginInfo]: the versions a plugin supports, in the order it
    declares them, and the encoder of its version document to a writer. *)
Record PluginInfo (U : Type) : Type :=
  { SupportedVersions : list string;
    Encode : nat -> M U (option string) }.
Arguments SupportedVersions {U} _.
Arguments Encode {U} _ _.

(** [*version.ErrorIncompatible], by the one method the skeleton calls. *)
Record ErrorIncompatible : Type := { Details : string }.

(** [version.ConfigDecoder] and [version.Reconciler] are declared outside
    src/: they are taken by their methods.  [Decode] gives an error text
    or the declared version. *)
Record ConfigDecoder : Type := { Decode : string -> string + string }.

Record Reconciler (U : Type) : Type :=
  { Check : string -> PluginInfo U -> option ErrorIncompatible }.
Arguments Check {U} _ _ _.

Fixpoint decimal (acc : N) (s : string) : option N :=
  match s with
  | EmptyString => Some acc
  | String c s' =>
      if json.isDigit c then decimal (acc * 10 + (json.code c - 48))%N s' else None
  end.

(** A non-empty run of decimal digits as a number. *)
Definition number (s : string) : option N :=
  match s with
  | EmptyString => None
  | String _ _ => decimal 0 s
  end.

(** The parts of [s] between the dots. *)
Fixpoint split (s : string) : list string :=
  match s with
  | EmptyString => [EmptyString]
  | String c s' =>
      if Ascii.eqb c "."%char then EmptyString :: split s'
      else
        match split s' with
        | p :: ps => String c p :: ps
        | [] => [String c EmptyString]
        end
  end.

(** Modelled from the spec: the parsing of a version string of the form
    major.minor.patch (pkg/version is not under src/). *)
Definition ParseVersion (v : string) : option (N * N * N) :=
  match split v with
  | [a; b; c] =>
      match number a, number b, number c with
      | Some x, Some y, Some z => Some (x, y, z)
      | _, _, _ => None
      end
  | _ => None
  end.

(** Modelled from the spec: [version.GreaterThanOrEqualTo] of pkg/version,
    not under src/: the total order on versions major.minor.patch, and a
    decode error for a version string that is malformed.  The result is
    the error text or the comparison. *)
Definition GreaterThanOrEqualTo {texts : ErrorTexts} (v other : string) : string + bool :=
  match ParseVersion v with
  | None => inl (versionErrorText v)
  | Some (a1, b1, c1) =>
      match ParseVersion other with
      | None => inl (versionErrorText other)
      | Some (a2, b2, c2) =>
          inr ((a2 <? a1) || ((a1 =? a2) && ((b2 <? b1) || ((b1 =? b2) && (c2 <=? c1)))))%N
      end
  end.

End version.

(** ** pkg/skel *)
Module skel.

Import types.

(** [CmdArgs] captures all the arguments passed in to the plugin via both
    env vars and stdin. *)
Record CmdArgs : Type :=
  { ContainerID : string;
    Netns : string;
    IfName : string;
    Args : string;
    Path : string;
    StdinData : string }.

Record dispatcher (U : Type) : Type :=
  { Getenv : string -> string;
    Stdin : nat;
    Stdout : nat;
    Stderr : nat;
    ConfVersionDecoder : version.ConfigDecoder;
    VersionReconciler : version.Reconciler U }.
Arguments Getenv {U} _ _.
Arguments Stdin {U} _.
Arguments Stdout {U} _.
Arguments Stderr {U} _.
Arguments ConfVersionDecoder {U} _.
Arguments VersionReconciler {U} _.

(** [t.Stdin = r] *)
Definition setStdin {U : Type} (t : dispatcher U) (r : nat) : dispatcher U :=
  {| Getenv := Getenv t;
     Stdin := r;
     Stdout := Stdout t;
     Stderr := Stderr t;
     ConfVersionDecoder := ConfVersionDecoder t;
     VersionReconciler := VersionReconciler t |}.

(** The six string variables of [getCmdArgsFromEnv], which its table
    refers to by address. *)
Record Locals : Type :=
  { cmd : string; contID : string; netns : string;
    ifName : string; args : string; path : string }.

Inductive Ref : Type := ref_cmd | ref_contID | ref_netns | ref_ifName | ref_args | ref_path.

Definition load (r : Ref) (l : Locals) : string :=
  match r with
  | ref_cmd => cmd l
  | ref_contID => contID l
  | ref_netns => netns l
  | ref_ifName => ifName l
  | ref_args => args l
  | ref_path => path l
  end.

Definition store (r : Ref) (v : string) (l : Locals) : Locals :=
  match r with
  | ref_cmd =>
      {| cmd := v; contID := contID l; netns := netns l;
         ifName := ifName l; args := args l; path := path l |}
  | ref_contID =>
      {| cmd := cmd l; contID := v; netns := netns l;
         ifName := ifName l; args := args l; path := path l |}
  | ref_netns =>
      {| cmd := cmd l; contID := contID l; netns := v;
         ifName := ifName l; args := args l; path := path l |}
  | ref_ifName =>
      {| cmd := cmd l; contID := contID l; netns := netns l;
         ifName := v; args := args l; path := path l |}
  | ref_args =>
      {| cmd := cmd l; contID := contID l; netns := netns l;
         ifName := ifName l; args := v; path := path l |}
  | ref_path =>
      {| cmd := cmd l; contID := contID l; netns := netns l;
         ifName := ifName l; args := args l; path := v |}
  end.

(** [reqForCmdEntry], a [map[string]bool]: a key that is absent reads as
    false. *)
Definition required (m : gmap string bool) (k : string) : bool :=
  default false (m !! k).

Definition entry (add check del : bool) : gmap string bool :=
  <["ADD" := add]> (<["CHECK" := check]> (<["DEL" := del]> ∅)).

Record Var : Type :=
  { name : string; val : Ref; reqForCmd : gmap string bool }.

Definition vars : list Var :=
  [ {| name := "CNI_COMMAND"; val := ref_cmd; reqForCmd := entry true true true |};
    {| name := "CNI_CONTAINERID"; val := ref_contID; reqForCmd := entry true true true |};
    {| name := "CNI_NETNS"; val := ref_netns; reqForCmd := entry true true false |};
    {| name := "CNI_IFNAME"; val := ref_ifName; reqForCmd := entry true true true |};
    {| name := "CNI_ARGS"; val := ref_args; reqForCmd := entry false false false |};
    {| name := "CNI_PATH"; val := ref_path; reqForCmd := entry true true true |} ].

(** One turn of the loop over [vars]. *)
Definition scanVar (getenv : string -> string) (st : Locals * list string) (v : Var) :
  Locals * list string :=
  let '(l, argsMissing) := st in
  let l := store (val v) (getenv (name v)) l in
  if String.eqb (load (val v) l) EmptyString then
    if required (reqForCmd v) (cmd l) || String.eqb (name v) "CNI_COMMAND"
    then (l, (argsMissing ++ [name v])%list)
    else (l, argsMissing)
  else (l, argsMissing).

Definition zeroLocals : Locals :=
  {| cmd := EmptyString; contID := EmptyString; netns := EmptyString;
     ifName := EmptyString; args := EmptyString; path := EmptyString |}.

Definition scanVars (getenv : string -> string) : Locals * list string :=
  fold_left (scanVar getenv) vars (zeroLocals, []).

Section Dispatcher.

Context {U : Type} {texts : ErrorTexts}.

Definition Handler : Type := CmdArgs -> M U (option error).

(** The result is the dispatcher, whose [Stdin] the call may replace, and
    the three values the Go function returns. *)
Definition getCmdArgsFromEnv (t : dispatcher U) :
  M U (dispatcher U * (string * option CmdArgs * option Error)) :=
  let '(l, argsMissing) := scanVars (Getenv t) in
  if (0 <? List.length argsMissing)%nat then
    let joined := String.concat "," argsMissing in
    ret (t, (EmptyString, None,
             Some (NewError ErrMissingEnvironmentVariables
                     ("required env variables [" ++ joined ++ "] missing") EmptyString)))
  else
    let* t := (if String.eqb (cmd l) "VERSION"
               then let* r := NewReader EmptyString in ret (setStdin t r)
               else ret t) in
    let* (stdinData, err) := ReadAll (Stdin t) in
    match err with
    | Some e =>
        ret (t, (EmptyString, None,
                 Some (NewError ErrFailedIO ("error reading from stdin: " ++ e) EmptyString)))
    | None =>
        let cmdArgs :=
          {| ContainerID := contID l;
             Netns := netns l;
             IfName := ifName l;
             Args := args l;
             Path := path l;
             StdinData := stdinData |} in
        ret (t, (cmd l, Some cmdArgs, None))
    end.

Definition checkVersionAndCall (t : dispatcher U) (cmdArgs : option CmdArgs)
  (pluginVersionInfo : version.PluginInfo U) (toCall : Handler) : M U (option Error) :=
  let* a := deref cmdArgs in
  match version.Decode (ConfVersionDecoder t) (StdinData a) with
  | inl e => ret (Some (NewError ErrFailedDecode e EmptyString))
  | inr configVersion =>
      match version.Check (VersionReconciler t) configVersion pluginVersionInfo with
      | Some verErr =>
          ret (Some (NewError ErrIncompatibleCNIVersion "incompatible CNI versions"
                       (version.Details verErr)))
      | None =>
          let* err := toCall a in
          match err with
          | Some (TypesError e) => ret e
          | Some (OtherError msg) => ret (Some (NewError ErrFailedPluginCall msg EmptyString))
          | None => ret None
          end
      end
  end.

Definition validateConfig (jsonBytes : string) : option Error :=
  let '(err, confName) := json.Unmarshal "name" jsonBytes EmptyString in
  match err with
  | Some e =>
      Some (NewError ErrFailedDecode
              ("error unmarshall network config: " ++ jsonErrorText jsonBytes e) EmptyString)
  | None =>
      if String.eqb confName EmptyString
      then Some (NewError ErrInvalidNetworkConfig "missing network name" EmptyString)
      else None
  end.

(** The loop of the CHECK case of [pluginMain] over the versions the
    plugin supports. *)
Fixpoint checkSupported (t : dispatcher U) (cmdArgs : option CmdArgs)
  (versionInfo : version.PluginInfo U) (cmdCheck : Handler) (configVersion : string)
  (supported : list string) : M U (option Error) :=
  match supported with
  | [] =>
      ret (Some (NewError ErrIncompatibleCNIVersion
                   "plugin version does not allow CHECK" EmptyString))
  | pluginVersion :: rest =>
      match version.GreaterThanOrEqualTo pluginVersion configVersion with
      | inl e => ret (Some (NewError ErrFailedDecode e EmptyString))
      | inr true => checkVersionAndCall t cmdArgs versionInfo cmdCheck
      | inr false => checkSupported t cmdArgs versionInfo cmdCheck configVersion rest
      end
  end.

Definition isMissingEnvironmentVariables (c : ErrorCode) : bool :=
  match c with
  | ErrMissingEnvironmentVariables => true
  | _ => false
  end.

(** The switch of [pluginMain], entered with no error so far. *)
Definition dispatch (t : dispatcher U) (cmdAdd cmdCheck cmdDel : Handler)
  (versionInfo : version.PluginInfo U) (cmd : string) (cmdArgs : option CmdArgs) :
  M U (option Error) :=
  if String.eqb cmd "ADD" then checkVersionAndCall t cmdArgs versionInfo cmdAdd
  else if String.eqb cmd "CHECK" then
    let* a := deref cmdArgs in
    match version.Decode (ConfVersionDecoder t) (StdinData a) with
    | inl e => ret (Some (NewError ErrFailedDecode e EmptyString))
    | inr configVersion =>
        match version.GreaterThanOrEqualTo configVersion "0.4.0" with
        | inl e => ret (Some (NewError ErrFailedDecode e EmptyString))
        | inr false =>
            ret (Some (NewError ErrIncompatibleCNIVersion
                         "config version does not allow CHECK" EmptyString))
        | inr true =>
            checkSupported t cmdArgs versionInfo cmdCheck configVersion
              (version.SupportedVersions versionInfo)
        end
    end
  else if String.eqb cmd "DEL" then checkVersionAndCall t cmdArgs versionInfo cmdDel
  else if String.eqb cmd "VERSION" then
    let* err := version.Encode versionInfo (Stdout t) in
    match err with
    | Some e => ret (Some (NewError ErrFailedEncode e EmptyString))
    | None => ret None
    end
  else ret (Some (NewError ErrUnknownCommand ("unknown CNI_COMMAND: " ++ cmd) EmptyString)).

Definition pluginMain (t : dispatcher U) (cmdAdd cmdCheck cmdDel : Handler)
  (versionInfo : version.PluginInfo U) (about : string) : M U (option Error) :=
  let* (t, (cmd, cmdArgs, err)) := getCmdArgsFromEnv t in
  match err with
  | Some err =>
      if isMissingEnvironmentVariables (Code err)
         && String.eqb (Getenv t "CNI_COMMAND") EmptyString
         && negb (String.eqb about EmptyString)
      then let* _ := Fprintln (Stderr t) about in ret None
      else ret (Some err)
  | None =>
      let* err :=
        (if negb (String.eqb cmd "VERSION")
         then let* a := deref cmdArgs in ret (validateConfig (StdinData a))
         else ret None) in
      match err with
      | Some err => ret (Some err)
      | None => dispatch t cmdAdd cmdCheck cmdDel versionInfo cmd cmdArgs
      end
  end.

End Dispatcher.

End skel.

(** ** The requirement table of the specification

    Section 4.3 of the specification, row by row in its order: the
    parameter, and whether Add, Check and Delete require it. *)
Module spec.

Record Row : Type := { param : string; forAdd : bool; forCheck : bool; forDelete : bool }.

Definition table : list Row :=
  [ {| param := "CNI_COMMAND"; forAdd := true; forCheck := true; forDelete := true |};
    {| param := "CNI_CONTAINERID"; forAdd := true; forCheck := true; forDelete := true |};
    {| param := "CNI_NETNS"; forAdd := true; forCheck := true; forDelete := false |};
    {| param := "CNI_IFNAME"; forAdd := true; forCheck := true; forDelete := true |};
    {| param := "CNI_ARGS"; forAdd := false; forCheck := false; forDelete := false |};
    {| param := "CNI_PATH"; forAdd := true; forCheck := true; forDelete := true |} ].

(** Whether the row is marked required for the operation named [cmd]; no
    row is required for anything else. *)
Definition requiredFor (r : Row) (cmd : string) : bool :=
  if String.eqb cmd "ADD" then forAdd r
  else if String.eqb cmd "CHECK" then forCheck r
  else if String.eqb cmd "DEL" then forDelete r
  else false.

(** A parameter is recorded as missing when it is empty and either
    required for the operation or the command parameter itself. *)
Definition isMissing (getenv : string -> string) (r : Row) : bool :=
  String.eqb (getenv (param r)) EmptyString
  && (requiredFor r (getenv "CNI_COMMAND") || String.eqb (param r) "CNI_COMMAND").

(** The names of the missing parameters, in table order. *)
Definition missing (getenv : string -> string) : list string :=
  List.map param (List.filter (isMissing getenv) table).

End spec.

(** ** Implementations of the version package's interfaces *)
Module impl.

Section Impl.

Context {texts : ErrorTexts}.

(** Modelled from the spec: the decoder of pkg/version (not under src/).
    It parses just the version field; a body that is not valid JSON, or
    that omits the field, is a decode error. *)
Definition Decode (body : string) : string + string :=
  match json.Unmarshal "cniVersion" body EmptyString with
  | (Some e, _) => inl (jsonErrorText body e)
  | (None, v) => if String.eqb v EmptyString then inl (versionErrorText v) else inr v
  end.

Definition ConfigDecoder : version.ConfigDecoder := {| version.Decode := Decode |}.

(** Modelled from the spec: the general compatibility check of pkg/version
    (not under src/).  It fails when the declared version is not among the
    versions the plugin supports; the detail names the version and the
    supported set. *)
Definition Check {U : Type} (configVersion : string) (info : version.PluginInfo U) :
  option version.ErrorIncompatible :=
  if existsb (String.eqb configVersion) (version.SupportedVersions info) then None
  else Some {| version.Details :=
                 "config is " ++ configVersion ++ ", plugin supports "
                   ++ String.concat "," (version.SupportedVersions info) |}.

Definition Reconciler {U : Type} : version.Reconciler U := {| version.Check := Check |}.

End Impl.

End impl.

(** ** A concrete plugin run, for evaluating the dispatcher *)
Module run.

Import skel.

#[local] Instance texts : ErrorTexts :=
  {| jsonErrorText := fun _ e =>
       match e with
       | json.SyntaxError => "invalid JSON"
       | json.UnmarshalTypeError v => "cannot unmarshal " ++ v
       end;
     versionErrorText := fun v => "invalid version: " ++ v |}.

Definition q : string := String json.quote EmptyString.

(** The document [{"name":"net","cniVersion":v}]. *)
Definition body (v : string) : string :=
  "{" ++ q ++ "name" ++ q ++ ":" ++ q ++ "net" ++ q ++ ","
      ++ q ++ "cniVersion" ++ q ++ ":" ++ q ++ v ++ q ++ "}".

Definition env (l : list (string * string)) (k : string) : string :=
  match List.find (fun p => String.eqb (fst p) k) l with
  | Some p => snd p
  | None => EmptyString
  end.

(** Every variable set, the command being [c]. *)
Definition fullEnv (c : string) : list (string * string) :=
  [ ("CNI_COMMAND", c); ("CNI_CONTAINERID", "c1"); ("CNI_NETNS", "/proc/1/ns/net");
    ("CNI_IFNAME", "eth0"); ("CNI_ARGS", "K=V"); ("CNI_PATH", "/opt/cni/bin") ].

(** Reader 0 is standard input holding [input]; writer 0 is standard
    output and writer 1 standard error; the user state counts the calls
    of handlers. *)
Definition world (input : string) : World nat :=
  {| readers := [ {| pending := input; failure := None |} ];
     writers := [ EmptyString; EmptyString ];
     user := 0 |}.

Definition disp (e : list (string * string)) : dispatcher nat :=
  {| Getenv := env e;
     Stdin := 0;
     Stdout := 0;
     Stderr := 1;
     ConfVersionDecoder := impl.ConfigDecoder;
     VersionReconciler := impl.Reconciler |}.

(** A handler that counts its call and returns [result]. *)
Definition handler (result : option error) : Handler (U := nat) :=
  fun _ w =>
    Returns result
      {| readers := readers w; writers := writers w; user := S (user w) |}.

Definition info (supported : list string) : version.PluginInfo nat :=
  {| version.SupportedVersions := supported;
     version.Encode := fun _ => ret None |}.

Definition args (input : string) : CmdArgs :=
  {| ContainerID := "c1"; Netns := "/proc/1/ns/net"; IfName := "eth0";
     Args := "K=V"; Path := "/opt/cni/bin"; StdinData := input |}.

End run.

(** * Properties *)

Import types skel.

(** ** The scan of the environment *)

Lemma required_entry (a c d : bool) (k : string) :
  required (entry a c d) k =
  if String.eqb k "ADD" then a
  else if String.eqb k "CHECK" then c
  else if String.eqb k "DEL" then d
  else false.
Proof.
  unfold required, entry.
  destruct (String.eqb_spec k "ADD") as [->|H1]; [reflexivity|].
  destruct (String.eqb_spec k "CHECK") as [->|H2]; [reflexivity|].
  destruct (String.eqb_spec k "DEL") as [->|H3]; [reflexivity|].
  rewrite !lookup_insert_ne by congruence. reflexivity.
Qed.

Lemma load_store (r : Ref) (x : string) (l : Locals) : load r (store r x l) = x.
Proof. destruct r; reflexivity. Qed.

(** One turn of the loop appends the variable's name or nothing. *)
Lemma scanVar_step (g : string -> string) (l : Locals) (miss : list string) (v : Var) :
  scanVar g (l, miss) v =
  (store (val v) (g (name v)) l,
   (miss ++ (if String.eqb (g (name v)) EmptyString
                && (required (reqForCmd v) (cmd (store (val v) (g (name v)) l))
                    || String.eqb (name v) "CNI_COMMAND")
             then [name v] else []))%list).
Proof.
  unfold scanVar. rewrite load_store.
  destruct (String.eqb (g (name v)) EmptyString); cbn [andb].
  - destruct (_ || _); [reflexivity | now rewrite app_nil_r].
  - now rewrite app_nil_r.
Qed.

Lemma filter_step {A : Type} (f : A -> bool) (x : A) (l : list A) :
  List.filter f (x :: l) = ((if f x then [x] else []) ++ List.filter f l)%list.
Proof. cbn. destruct (f x); reflexivity. Qed.

Lemma map_if {A B : Type} (f : A -> B) (b : bool) (x : A) :
  List.map f (if b then [x] else []) = if b then [f x] else [].
Proof. destruct b; reflexivity. Qed.

(** The loop reads the six variables and records as missing exactly the
    rows of the specification's table that are missing, in its order. *)
Lemma scanVars_spec (g : string -> string) :
  scanVars g =
  ({| cmd := g "CNI_COMMAND"; contID := g "CNI_CONTAINERID"; netns := g "CNI_NETNS";
      ifName := g "CNI_IFNAME"; args := g "CNI_ARGS"; path := g "CNI_PATH" |},
   spec.missing g).
Proof.
  unfold scanVars, vars, spec.missing, spec.table.
  cbn [fold_left].
  rewrite !scanVar_step.
  rewrite !filter_step, !map_app, !map_if.
  cbn [store val name reqForCmd cmd contID netns ifName args path zeroLocals
       List.filter List.map spec.param].
  rewrite !required_entry.
  unfold spec.isMissing, spec.requiredFor.
  cbn [spec.forAdd spec.forCheck spec.forDelete spec.param].
  rewrite !app_nil_r, <- !app_assoc. reflexivity.
Qed.

(** With no command, the command variable is the one thing missing. *)
Lemma missing_no_command (g : string -> string) :
  g "CNI_COMMAND" = EmptyString -> spec.missing g = ["CNI_COMMAND"].
Proof.
  intros E. unfold spec.missing, spec.table, spec.isMissing, spec.requiredFor.
  cbn [List.filter List.map spec.param spec.forAdd spec.forCheck spec.forDelete].
  rewrite E. cbn. rewrite !andb_false_r. reflexivity.
Qed.

(** A command other than ADD, CHECK and DEL requires no variable. *)
Lemma missing_other_command (g : string -> string) :
  g "CNI_COMMAND" <> EmptyString ->
  g "CNI_COMMAND" <> "ADD" -> g "CNI_COMMAND" <> "CHECK" -> g "CNI_COMMAND" <> "DEL" ->
  spec.missing g = [].
Proof.
  intros E0 E1 E2 E3.
  unfold spec.missing, spec.table, spec.isMissing, spec.requiredFor.
  cbn [List.filter List.map spec.param spec.forAdd spec.forCheck spec.forDelete].
  apply String.eqb_neq in E0, E1, E2, E3. rewrite E0, E1, E2, E3.
  cbn. rewrite !andb_false_r. reflexivity.
Qed.

Section Extraction.

Context {U : Type} {texts : ErrorTexts}.

(** Extraction when nothing is missing and the command is not VERSION:
    the whole of standard input becomes the configuration body. *)
Lemma getCmdArgsFromEnv_reads (t : dispatcher U) (w : World U) (rd : Reader) :
  spec.missing (Getenv t) = [] ->
  Getenv t "CNI_COMMAND" <> "VERSION" ->
  readers w !! Stdin t = Some rd ->
  failure rd = None ->
  getCmdArgsFromEnv t w =
  Returns
    (t, (Getenv t "CNI_COMMAND",
         Some {| ContainerID := Getenv t "CNI_CONTAINERID";
                 Netns := Getenv t "CNI_NETNS";
                 IfName := Getenv t "CNI_IFNAME";
                 Args := Getenv t "CNI_ARGS";
                 Path := Getenv t "CNI_PATH";
                 StdinData := pending rd |},
         None))
    {| readers := <[Stdin t := {| pending := EmptyString; failure := None |}]> (readers w);
       writers := writers w;
       user := user w |}.
Proof.
  intros Hm Hv Hr Hf. unfold getCmdArgsFromEnv.
  rewrite scanVars_spec, Hm. cbn [List.length Nat.ltb Nat.leb cmd].
  apply String.eqb_neq in Hv. rewrite Hv.
  unfold bind, ret, ReadAll. rewrite Hr, Hf. reflexivity.
Qed.

(** Extraction when the scan recorded something missing. *)
Lemma getCmdArgsFromEnv_fails (t : dispatcher U) (w : World U) (n : string) (ns : list string) :
  spec.missing (Getenv t) = n :: ns ->
  getCmdArgsFromEnv t w =
  Returns
    (t, (EmptyString, None,
         Some (NewError ErrMissingEnvironmentVariables
                 ("required env variables [" ++ String.concat "," (n :: ns) ++ "] missing")
                 EmptyString)))
    w.
Proof.
  intros Hm. unfold getCmdArgsFromEnv. rewrite scanVars_spec, Hm. reflexivity.
Qed.

(** C3: whenever some parameter that the table marks required for the
    operation is empty (or the command itself is), extraction fails with
    MissingEnvironmentVariables and its message lists all the missing
    names, and only them, joined by commas in table order; nothing is read
    from standard input. *)
Theorem missing_parameters_reported (t : dispatcher U) (w : World U) :
  spec.missing (Getenv t) <> [] ->
  getCmdArgsFromEnv t w =
  Returns
    (t, (EmptyString, None,
         Some (NewError ErrMissingEnvironmentVariables
                 ("required env variables ["
                    ++ String.concat "," (spec.missing (Getenv t)) ++ "] missing")
                 EmptyString)))
    w.
Proof.
  intros Hm.
  destruct (spec.missing (Getenv t)) as [|n ns] eqn:E; [congruence|].
  now apply getCmdArgsFromEnv_fails.
Qed.

(** C7: when the command is VERSION, extraction succeeds whatever the
    other variables hold (the namespace may be empty) and whatever
    standard input is (it may even fail or be absent): the dispatcher
    reads a new empty reader in its place, every reader of the world is
    left as it was, and the configuration body is empty. *)
Theorem version_never_reads_stdin (t : dispatcher U) (w : World U) :
  Getenv t "CNI_COMMAND" = "VERSION" ->
  let w' := {| readers := (readers w ++ [{| pending := EmptyString; failure := None |}])%list;
               writers := writers w;
               user := user w |} in
  getCmdArgsFromEnv t w =
  Returns
    (setStdin t (List.length (readers w)),
     ("VERSION",
      Some {| ContainerID := Getenv t "CNI_CONTAINERID";
              Netns := Getenv t "CNI_NETNS";
              IfName := Getenv t "CNI_IFNAME";
              Args := Getenv t "CNI_ARGS";
              Path := Getenv t "CNI_PATH";
              StdinData := EmptyString |},
      None))
    w'
  /\ (forall (i : nat) (rd : Reader), readers w !! i = Some rd -> readers w' !! i = Some rd).
Proof.
  intros Hc w'. split.
  - unfold getCmdArgsFromEnv. rewrite scanVars_spec.
    rewrite missing_other_command by (rewrite Hc; discriminate).
    cbn [List.length Nat.ltb Nat.leb cmd]. rewrite Hc.
    unfold bind, ret, NewReader, ReadAll, setStdin; cbn.
    rewrite lookup_app_r by reflexivity. rewrite Nat.sub_diag. cbn.
    unfold w'. f_equal. f_equal.
    rewrite insert_app_r_alt by reflexivity. rewrite Nat.sub_diag. reflexivity.
  - intros i rd Hi. unfold w'; cbn. rewrite lookup_app_l; [exact Hi|].
    eapply lookup_lt_Some; exact Hi.
Qed.

End Extraction.

(** ** The dispatcher *)

Section Dispatch.

Context {U : Type} {texts : ErrorTexts}.

Variables (cmdAdd cmdCheck cmdDel : Handler (U := U)).
Variable versionInfo : version.PluginInfo U.
Variable about : string.

(** After a successful extraction of a command other than VERSION, the
    configuration is validated first; its error ends the dispatch. *)
Lemma pluginMain_validates (t t' : dispatcher U) (w w' : World U) (c : string) (a : CmdArgs) :
  getCmdArgsFromEnv t w = Returns (t', (c, Some a, None)) w' ->
  c <> "VERSION" ->
  pluginMain t cmdAdd cmdCheck cmdDel versionInfo about w =
  match validateConfig (StdinData a) with
  | Some e => Returns (Some e) w'
  | None => dispatch t' cmdAdd cmdCheck cmdDel versionInfo c (Some a) w'
  end.
Proof.
  intros He Hc. unfold pluginMain, bind at 1. rewrite He.
  apply String.eqb_neq in Hc. rewrite Hc. cbn [negb].
  unfold bind, deref, ret.
  destruct (validateConfig (StdinData a)); reflexivity.
Qed.

(** The CHECK case up to the search: the declared version is decoded and
    compared with the floor. *)
Lemma dispatch_check (t : dispatcher U) (a : CmdArgs) (w : World U) (cv : string) :
  version.Decode (ConfVersionDecoder t) (StdinData a) = inr cv ->
  version.GreaterThanOrEqualTo cv "0.4.0" = inr true ->
  dispatch t cmdAdd cmdCheck cmdDel versionInfo "CHECK" (Some a) w =
  checkSupported t (Some a) versionInfo cmdCheck cv (version.SupportedVersions versionInfo) w.
Proof.
  intros Hd Hf. unfold dispatch. cbn [String.eqb Ascii.eqb Bool.eqb].
  unfold bind, deref, ret. rewrite Hd, Hf. reflexivity.
Qed.

(** The search passes over the supported versions that are below the
    declared one. *)
Lemma checkSupported_skip (t : dispatcher U) (a : option CmdArgs) (cv : string)
  (pre rest : list string) (w : World U) :
  Forall (fun v => version.GreaterThanOrEqualTo v cv = inr false) pre ->
  checkSupported t a versionInfo cmdCheck cv (pre ++ rest)%list w =
  checkSupported t a versionInfo cmdCheck cv rest w.
Proof.
  induction 1 as [|v pre Hv _ IH]; [reflexivity|].
  cbn [app checkSupported]. rewrite Hv. exact IH.
Qed.

(** C6: with the command variable empty, a non-empty about string is
    printed (and a newline) on the dispatcher's diagnostic stream and the
    dispatcher returns no error; with an empty about string the
    MissingEnvironmentVariables error of the extraction is returned as it
    is. *)
Theorem about_on_no_command (t : dispatcher U) (w : World U) :
  Getenv t "CNI_COMMAND" = EmptyString ->
  (about <> EmptyString ->
   forall out : string, writers w !! Stderr t = Some out ->
   pluginMain t cmdAdd cmdCheck cmdDel versionInfo about w =
   Returns None
     {| readers := readers w;
        writers := <[Stderr t := out ++ about ++ newline]> (writers w);
        user := user w |})
  /\ (about = EmptyString ->
      pluginMain t cmdAdd cmdCheck cmdDel versionInfo about w =
      Returns
        (Some (NewError ErrMissingEnvironmentVariables
                 "required env variables [CNI_COMMAND] missing" EmptyString))
        w).
Proof.
  intros Hc.
  assert (He : getCmdArgsFromEnv t w =
               Returns (t, (EmptyString, None,
                            Some (NewError ErrMissingEnvironmentVariables
                                    "required env variables [CNI_COMMAND] missing"
                                    EmptyString))) w).
  { exact (getCmdArgsFromEnv_fails t w _ _ (missing_no_command _ Hc)). }
  split.
  - intros Ha out Hout. unfold pluginMain, bind at 1. rewrite He.
    cbn [Code NewError isMissingEnvironmentVariables andb]. rewrite Hc.
    apply String.eqb_neq in Ha. rewrite Ha. cbn.
    unfold bind, Fprintln, ret. rewrite Hout. reflexivity.
  - intros ->. unfold pluginMain, bind at 1. rewrite He.
    cbn [Code NewError isMissingEnvironmentVariables andb]. rewrite Hc. reflexivity.
Qed.

(** C4, as the code has it: an error of a handler that is a typed protocol
    error is returned as the handler gave it, neither changed nor wrapped
    (a nil pointer of that type comes out as no error); any other error
    is wrapped once as FailedPluginCall whose message is the text of the
    original error and whose details are empty; no error stays none. *)
Theorem handler_error_normalised (t : dispatcher U) (a : CmdArgs) (toCall : Handler (U := U))
  (cv : string) (w w' : World U) :
  version.Decode (ConfVersionDecoder t) (StdinData a) = inr cv ->
  version.Check (VersionReconciler t) cv versionInfo = None ->
  (forall e : option Error,
      toCall a w = Returns (Some (TypesError e)) w' ->
      checkVersionAndCall t (Some a) versionInfo toCall w = Returns e w')
  /\ (forall msg : string,
         toCall a w = Returns (Some (OtherError msg)) w' ->
         checkVersionAndCall t (Some a) versionInfo toCall w =
         Returns (Some {| Code := ErrFailedPluginCall; Msg := msg; Details := EmptyString |}) w')
  /\ (toCall a w = Returns None w' ->
      checkVersionAndCall t (Some a) versionInfo toCall w = Returns None w').
Proof.
  intros Hd Hc.
  assert (Hrun : forall r : option error,
             toCall a w = Returns r w' ->
             checkVersionAndCall t (Some a) versionInfo toCall w =
             match r with
             | Some (TypesError e) => Returns e w'
             | Some (OtherError msg) =>
                 Returns (Some (NewError ErrFailedPluginCall msg EmptyString)) w'
             | None => Returns None w'
             end).
  { intros r Hr. unfold checkVersionAndCall, bind, deref, ret.
    rewrite Hd, Hc, Hr. destruct r as [[e|msg]|]; reflexivity. }
  repeat split; intros; now rewrite (Hrun _ ltac:(eassumption)).
Qed.

(** Members that leave an empty string field empty. *)
Lemma storeMembers_empty (name : string) (ms : list (string * json.Value)) :
  Forall (fun kv => json.equalFold name (fst kv) = true ->
                    snd kv = json.Str EmptyString \/ snd kv = json.Null) ms ->
  json.storeMembers name ms EmptyString None = (None, EmptyString).
Proof.
  induction 1 as [|[k v] ms Hkv _ IH]; [reflexivity|].
  cbn [json.storeMembers]. destruct (json.equalFold name k) eqn:Ek; [|exact IH].
  destruct (Hkv Ek) as [Hv|Hv]; cbn [snd] in Hv; subst v; exact IH.
Qed.



(** The order of versions at the versions of the example. *)
Lemma gte_examples :
  version.GreaterThanOrEqualTo "0.3.1" "0.4.0" = inr false
  /\ version.GreaterThanOrEqualTo "0.5.0" "0.4.0" = inr true
  /\ version.GreaterThanOrEqualTo "0.4.0" "0.4.0" = inr true
  /\ version.GreaterThanOrEqualTo "0.3.0" "0.5.0" = inr false
  /\ version.GreaterThanOrEqualTo "0.4.0" "0.5.0" = inr false
  /\ version.GreaterThanOrEqualTo "0.3.0" "0.4.0" = inr false.
Proof. repeat split; reflexivity. Qed.

(** C2: in a CHECK, a declared version below the floor 0.4.0 ends the
    dispatch with IncompatibleCNIVersion, whatever versions the plugin
    supports and whatever the handlers are: none is called, and the world
    is as extraction left it. *)
Theorem check_below_floor (t t' : dispatcher U) (w w' : World U) (a : CmdArgs) (cv : string) :
  getCmdArgsFromEnv t w = Returns (t', ("CHECK", Some a, None)) w' ->
  validateConfig (StdinData a) = None ->
  version.Decode (ConfVersionDecoder t') (StdinData a) = inr cv ->
  version.GreaterThanOrEqualTo cv "0.4.0" = inr false ->
  pluginMain t cmdAdd cmdCheck cmdDel versionInfo about w =
  Returns
    (Some (NewError ErrIncompatibleCNIVersion "config version does not allow CHECK" EmptyString))
    w'.
Proof.
  intros He Hv Hd Hf.
  rewrite (pluginMain_validates _ _ _ _ _ _ He ltac:(discriminate)), Hv.
  unfold dispatch. cbn [String.eqb Ascii.eqb Bool.eqb].
  unfold bind, deref, ret. rewrite Hd, Hf. reflexivity.
Qed.

(** A CHECK whose declared version passes the floor and that finds a
    supported version not below it goes on as ADD and DEL do. *)
Lemma check_found (t t' : dispatcher U) (w w' : World U) (a : CmdArgs) (cv v : string)
  (pre post : list string) :
  getCmdArgsFromEnv t w = Returns (t', ("CHECK", Some a, None)) w' ->
  validateConfig (StdinData a) = None ->
  version.Decode (ConfVersionDecoder t') (StdinData a) = inr cv ->
  version.GreaterThanOrEqualTo cv "0.4.0" = inr true ->
  version.SupportedVersions versionInfo = (pre ++ v :: post)%list ->
  Forall (fun p => version.GreaterThanOrEqualTo p cv = inr false) pre ->
  version.GreaterThanOrEqualTo v cv = inr true ->
  pluginMain t cmdAdd cmdCheck cmdDel versionInfo about w =
  checkVersionAndCall t' (Some a) versionInfo cmdCheck w'.
Proof.
  intros He Hv Hd Hf Hs Hpre Hgte.
  rewrite (pluginMain_validates _ _ _ _ _ _ He ltac:(discriminate)), Hv.
  rewrite (dispatch_check _ _ _ _ Hd Hf), Hs, (checkSupported_skip _ _ _ _ _ _ Hpre).
  cbn [checkSupported]. rewrite Hgte. reflexivity.
Qed.

(** C9: in a CHECK, once the floor test and the search have passed, the
    dispatcher goes through [checkVersionAndCall]: the declared version is
    decoded again and checked by the general reconciliation.  If that
    rejects it, the dispatch ends with IncompatibleCNIVersion carrying the
    reconciler's details and the world is as extraction left it, whatever
    the check handler is; the check handler runs only if it accepts. *)
Theorem check_runs_general_reconciliation (t t' : dispatcher U) (w w' : World U)
  (a : CmdArgs) (cv v : string) (pre post : list string) :
  getCmdArgsFromEnv t w = Returns (t', ("CHECK", Some a, None)) w' ->
  validateConfig (StdinData a) = None ->
  version.Decode (ConfVersionDecoder t') (StdinData a) = inr cv ->
  version.GreaterThanOrEqualTo cv "0.4.0" = inr true ->
  version.SupportedVersions versionInfo = (pre ++ v :: post)%list ->
  Forall (fun p => version.GreaterThanOrEqualTo p cv = inr false) pre ->
  version.GreaterThanOrEqualTo v cv = inr true ->
  pluginMain t cmdAdd cmdCheck cmdDel versionInfo about w =
  checkVersionAndCall t' (Some a) versionInfo cmdCheck w'
  /\ (forall verErr : version.ErrorIncompatible,
         version.Check (VersionReconciler t') cv versionInfo = Some verErr ->
         pluginMain t cmdAdd cmdCheck cmdDel versionInfo about w =
         Returns
           (Some (NewError ErrIncompatibleCNIVersion "incompatible CNI versions"
                    (version.Details verErr)))
           w')
  /\ (version.Check (VersionReconciler t') cv versionInfo = None ->
      pluginMain t cmdAdd cmdCheck cmdDel versionInfo about w =
      match cmdCheck a w' with
      | Returns (Some (TypesError e)) w'' => Returns e w''
      | Returns (Some (OtherError msg)) w'' =>
          Returns (Some (NewError ErrFailedPluginCall msg EmptyString)) w''
      | Returns None w'' => Returns None w''
      | Panics => Panics
      end).
Proof.
  intros He Hv Hd Hf Hs Hpre Hgte.
  pose proof (check_found _ _ _ _ _ _ _ _ _ He Hv Hd Hf Hs Hpre Hgte) as Hrun.
  split; [exact Hrun|]. rewrite Hrun.
  unfold checkVersionAndCall, bind, deref, ret. rewrite Hd. split.
  - intros verErr Hc. rewrite Hc. reflexivity.
  - intros Hc. rewrite Hc.
    destruct (cmdCheck a w') as [[[e|msg]|] w''|]; reflexivity.
Qed.

(** C10: in a CHECK whose declared version passes the floor, a supported
    version that does not parse, met before any supported version that is
    not below the declared one, ends the dispatch with FailedDecode: the
    search does not go on to the versions listed after it. *)
Theorem check_malformed_supported_version (t t' : dispatcher U) (w w' : World U)
  (a : CmdArgs) (cv bad e : string) (pre post : list string) :
  getCmdArgsFromEnv t w = Returns (t', ("CHECK", Some a, None)) w' ->
  validateConfig (StdinData a) = None ->
  version.Decode (ConfVersionDecoder t') (StdinData a) = inr cv ->
  version.GreaterThanOrEqualTo cv "0.4.0" = inr true ->
  version.SupportedVersions versionInfo = (pre ++ bad :: post)%list ->
  Forall (fun p => version.GreaterThanOrEqualTo p cv = inr false) pre ->
  version.GreaterThanOrEqualTo bad cv = inl e ->
  pluginMain t cmdAdd cmdCheck cmdDel versionInfo about w =
  Returns (Some (NewError ErrFailedDecode e EmptyString)) w'.
Proof.
  intros He Hv Hd Hf Hs Hpre Hbad.
  rewrite (pluginMain_validates _ _ _ _ _ _ He ltac:(discriminate)), Hv.
  rewrite (dispatch_check _ _ _ _ Hd Hf), Hs, (checkSupported_skip _ _ _ _ _ _ Hpre).
  cbn [checkSupported]. rewrite Hbad. reflexivity.
Qed.

(** C1, as the code has it: in a CHECK by a plugin that supports 0.3.0 and
    0.4.0, a declared version 0.3.1 is below the floor 0.4.0 and fails
    with IncompatibleCNIVersion before the search; a declared version
    0.5.0 fails with IncompatibleCNIVersion because no supported version
    reaches it; a declared version 0.4.0 selects 0.4.0, the first
    supported version not below it, and, the general reconciliation
    accepting it, a check handler that returns no error makes the
    dispatch succeed. *)
Theorem check_with_0_3_0_and_0_4_0 (t t' : dispatcher U) (w w' : World U) (a : CmdArgs) :
  getCmdArgsFromEnv t w = Returns (t', ("CHECK", Some a, None)) w' ->
  validateConfig (StdinData a) = None ->
  version.SupportedVersions versionInfo = ["0.3.0"; "0.4.0"] ->
  (version.Decode (ConfVersionDecoder t') (StdinData a) = inr "0.3.1" ->
   pluginMain t cmdAdd cmdCheck cmdDel versionInfo about w =
   Returns
     (Some (NewError ErrIncompatibleCNIVersion "config version does not allow CHECK"
              EmptyString))
     w')
  /\ (version.Decode (ConfVersionDecoder t') (StdinData a) = inr "0.5.0" ->
      pluginMain t cmdAdd cmdCheck cmdDel versionInfo about w =
      Returns
        (Some (NewError ErrIncompatibleCNIVersion "plugin version does not allow CHECK"
                 EmptyString))
        w')
  /\ (version.Decode (ConfVersionDecoder t') (StdinData a) = inr "0.4.0" ->
      version.Check (VersionReconciler t') "0.4.0" versionInfo = None ->
      forall w'' : World U,
        cmdCheck a w' = Returns None w'' ->
        pluginMain t cmdAdd cmdCheck cmdDel versionInfo about w = Returns None w'').
Proof.
  intros He Hv Hs.
  destruct gte_examples as (G1 & G2 & G3 & G4 & G5 & G6).
  repeat split.
  - intros Hd.
    rewrite (pluginMain_validates _ _ _ _ _ _ He ltac:(discriminate)), Hv.
    unfold dispatch. cbn [String.eqb Ascii.eqb Bool.eqb].
    unfold bind, deref, ret. rewrite Hd, G1. reflexivity.
  - intros Hd.
    rewrite (pluginMain_validates _ _ _ _ _ _ He ltac:(discriminate)), Hv.
    rewrite (dispatch_check _ _ _ _ Hd G2), Hs.
    cbn [checkSupported]. rewrite G4, G5. reflexivity.
  - intros Hd Hc w'' Hh.
    rewrite (check_found _ _ _ _ _ _ _ ["0.3.0"] [] He Hv Hd G3 Hs
               ltac:(repeat constructor; exact G6) G3).
    unfold checkVersionAndCall, bind, deref, ret. rewrite Hd, Hc, Hh. reflexivity.
Qed.

End Dispatch.

(** ** Concrete runs *)

(** A DEL with only the command set: the three parameters DEL requires
    are reported, the optional namespace and arguments are not. *)
Lemma missing_parameters_reported_witness :
  spec.missing (Getenv (run.disp [("CNI_COMMAND", "DEL")])) <> []
  /\ getCmdArgsFromEnv (run.disp [("CNI_COMMAND", "DEL")]) (run.world "junk") =
     Returns
       (run.disp [("CNI_COMMAND", "DEL")],
        (EmptyString, None,
         Some (NewError ErrMissingEnvironmentVariables
                 "required env variables [CNI_CONTAINERID,CNI_IFNAME,CNI_PATH] missing"
                 EmptyString)))
       (run.world "junk").
Proof.
  split; [vm_compute; discriminate|].
  apply (missing_parameters_reported (run.disp [("CNI_COMMAND", "DEL")]) (run.world "junk")).
  vm_compute; discriminate.
Defined.

(** A VERSION with only the command set: standard input keeps its bytes. *)
Lemma version_never_reads_stdin_witness :
  Getenv (run.disp [("CNI_COMMAND", "VERSION")]) "CNI_COMMAND" = "VERSION"
  /\ getCmdArgsFromEnv (run.disp [("CNI_COMMAND", "VERSION")]) (run.world "junk") =
     Returns
       (setStdin (run.disp [("CNI_COMMAND", "VERSION")]) 1,
        ("VERSION",
         Some {| ContainerID := EmptyString; Netns := EmptyString; IfName := EmptyString;
                 Args := EmptyString; Path := EmptyString; StdinData := EmptyString |},
         None))
       {| readers := [ {| pending := "junk"; failure := None |};
                       {| pending := EmptyString; failure := None |} ];
          writers := [ EmptyString; EmptyString ];
          user := 0 |}.
Proof.
  split; [reflexivity|].
  apply (version_never_reads_stdin (run.disp [("CNI_COMMAND", "VERSION")]) (run.world "junk")).
  reflexivity.
Defined.

(** No variable set and an about string: it goes to standard error. *)
Lemma about_on_no_command_witness :
  Getenv (run.disp []) "CNI_COMMAND" = EmptyString
  /\ pluginMain (texts := run.texts) (run.disp []) (run.handler None) (run.handler None)
       (run.handler None) (run.info ["0.4.0"]) "CNI plugin" (run.world "junk") =
     Returns None
       {| readers := [ {| pending := "junk"; failure := None |} ];
          writers := [ EmptyString; "CNI plugin" ++ newline ];
          user := 0 |}.
Proof.
  split; [reflexivity|].
  exact (proj1 (about_on_no_command (texts := run.texts) (run.handler None) (run.handler None)
                  (run.handler None) (run.info ["0.4.0"]) "CNI plugin" (run.disp [])
                  (run.world "junk") eq_refl)
           ltac:(discriminate) EmptyString eq_refl).
Defined.

(** A handler that fails with a plain error. *)
Lemma handler_error_normalised_witness :
  checkVersionAndCall (run.disp (run.fullEnv "ADD"))
    (Some (run.args (run.body "0.4.0"))) (run.info ["0.4.0"])
    (run.handler (Some (OtherError "boom"))) (run.world EmptyString) =
  Returns
    (Some {| Code := ErrFailedPluginCall; Msg := "boom"; Details := EmptyString |})
    {| readers := [ {| pending := EmptyString; failure := None |} ];
       writers := [ EmptyString; EmptyString ];
       user := 1 |}.
Proof.
  apply (proj1 (proj2 (handler_error_normalised (run.info ["0.4.0"])
                         (run.disp (run.fullEnv "ADD")) (run.args (run.body "0.4.0"))
                         (run.handler (Some (OtherError "boom"))) "0.4.0"
                         (run.world EmptyString) _
                         ltac:(vm_compute; reflexivity) ltac:(vm_compute; reflexivity)))).
  vm_compute; reflexivity.
Defined.

(** C4, as stated, fails: the text of a plain error is the message of the
    wrapping error, not its details, which are empty. *)
Lemma plain_error_is_not_the_detail :
  ~ exists (e : Error) (w' : World nat),
      checkVersionAndCall (run.disp (run.fullEnv "ADD"))
        (Some (run.args (run.body "0.4.0"))) (run.info ["0.4.0"])
        (run.handler (Some (OtherError "boom"))) (run.world EmptyString) =
      Returns (Some e) w'
      /\ Code e = ErrFailedPluginCall /\ Details e = "boom".
Proof.
  intros (e & w' & Hrun & _ & Hd).
  vm_compute in Hrun. injection Hrun as He _. subst e. discriminate Hd.
Qed.



(** Extraction in a concrete run in which nothing is missing: standard
    input is read to its end. *)
Lemma run_extraction (e : list (string * string)) (input : string) :
  spec.missing (run.env e) = [] ->
  run.env e "CNI_COMMAND" <> "VERSION" ->
  getCmdArgsFromEnv (run.disp e) (run.world input) =
  Returns
    (run.disp e,
     (run.env e "CNI_COMMAND",
      Some {| ContainerID := run.env e "CNI_CONTAINERID";
              Netns := run.env e "CNI_NETNS";
              IfName := run.env e "CNI_IFNAME";
              Args := run.env e "CNI_ARGS";
              Path := run.env e "CNI_PATH";
              StdinData := input |},
      None))
    (run.world EmptyString).
Proof.
  intros Hm Hv.
  exact (getCmdArgsFromEnv_reads (run.disp e) (run.world input)
           {| pending := input; failure := None |} Hm Hv eq_refl eq_refl).
Qed.

Ltac extracted :=
  refine (run_extraction _ _ _ _); [vm_compute; reflexivity | vm_compute; discriminate].



(** A CHECK that declares 0.3.1 to a plugin that lists 0.3.1 itself. *)
Lemma check_below_floor_witness :
  pluginMain (texts := run.texts) (run.disp (run.fullEnv "CHECK")) (run.handler None)
    (run.handler None) (run.handler None) (run.info ["0.3.1"; "0.4.0"]) EmptyString
    (run.world (run.body "0.3.1")) =
  Returns
    (Some (NewError ErrIncompatibleCNIVersion "config version does not allow CHECK"
             EmptyString))
    (run.world EmptyString).
Proof.
  refine (check_below_floor (texts := run.texts) (run.handler None) (run.handler None)
            (run.handler None) (run.info ["0.3.1"; "0.4.0"]) EmptyString
            (run.disp (run.fullEnv "CHECK")) (run.disp (run.fullEnv "CHECK"))
            (run.world (run.body "0.3.1")) (run.world EmptyString)
            (run.args (run.body "0.3.1")) "0.3.1" _ _ _ _);
    [extracted | vm_compute; reflexivity ..].
Defined.

(** A CHECK that declares 0.4.1 to a plugin that supports 0.3.0 and 0.5.0:
    the search finds 0.5.0, the general reconciliation rejects 0.4.1, and
    the handler is not called. *)
Lemma check_runs_general_reconciliation_witness :
  pluginMain (texts := run.texts) (run.disp (run.fullEnv "CHECK")) (run.handler None)
    (run.handler None) (run.handler None) (run.info ["0.3.0"; "0.5.0"]) EmptyString
    (run.world (run.body "0.4.1")) =
  Returns
    (Some (NewError ErrIncompatibleCNIVersion "incompatible CNI versions"
             "config is 0.4.1, plugin supports 0.3.0,0.5.0"))
    (run.world EmptyString).
Proof.
  refine (proj1 (proj2 (check_runs_general_reconciliation (texts := run.texts)
                          (run.handler None) (run.handler None) (run.handler None)
                          (run.info ["0.3.0"; "0.5.0"]) EmptyString
                          (run.disp (run.fullEnv "CHECK")) (run.disp (run.fullEnv "CHECK"))
                          (run.world (run.body "0.4.1")) (run.world EmptyString)
                          (run.args (run.body "0.4.1")) "0.4.1" "0.5.0" ["0.3.0"] []
                          _ _ _ _ _ _ _))
            {| version.Details := "config is 0.4.1, plugin supports 0.3.0,0.5.0" |} _);
    [ extracted | vm_compute; reflexivity | vm_compute; reflexivity | vm_compute; reflexivity
    | reflexivity | repeat constructor | vm_compute; reflexivity | vm_compute; reflexivity ].
Defined.

(** A CHECK by a plugin that lists a malformed version before 0.4.0. *)
Lemma check_malformed_supported_version_witness :
  pluginMain (texts := run.texts) (run.disp (run.fullEnv "CHECK")) (run.handler None)
    (run.handler None) (run.handler None) (run.info ["0.3.0"; "x.y"; "0.4.0"]) EmptyString
    (run.world (run.body "0.4.0")) =
  Returns
    (Some (NewError ErrFailedDecode "invalid version: x.y" EmptyString))
    (run.world EmptyString).
Proof.
  refine (check_malformed_supported_version (texts := run.texts)
            (run.handler None) (run.handler None) (run.handler None)
            (run.info ["0.3.0"; "x.y"; "0.4.0"]) EmptyString
            (run.disp (run.fullEnv "CHECK")) (run.disp (run.fullEnv "CHECK"))
            (run.world (run.body "0.4.0")) (run.world EmptyString)
            (run.args (run.body "0.4.0")) "0.4.0" "x.y" "invalid version: x.y"
            ["0.3.0"] ["0.4.0"] _ _ _ _ _ _ _);
    [ extracted | vm_compute; reflexivity | vm_compute; reflexivity | vm_compute; reflexivity
    | reflexivity | repeat constructor | vm_compute; reflexivity ].
Defined.

(** A CHECK that declares 0.4.0 to a plugin that supports 0.3.0 and 0.4.0:
    the check handler is called once and the dispatch succeeds. *)
Lemma check_with_0_3_0_and_0_4_0_witness :
  pluginMain (texts := run.texts) (run.disp (run.fullEnv "CHECK")) (run.handler None)
    (run.handler None) (run.handler None) (run.info ["0.3.0"; "0.4.0"]) EmptyString
    (run.world (run.body "0.4.0")) =
  Returns None
    {| readers := [ {| pending := EmptyString; failure := None |} ];
       writers := [ EmptyString; EmptyString ];
       user := 1 |}.
Proof.
  refine (proj2 (proj2 (check_with_0_3_0_and_0_4_0 (texts := run.texts)
                          (run.handler None) (run.handler None) (run.handler None)
                          (run.info ["0.3.0"; "0.4.0"]) EmptyString
                          (run.disp (run.fullEnv "CHECK")) (run.disp (run.fullEnv "CHECK"))
                          (run.world (run.body "0.4.0")) (run.world EmptyString)
                          (run.args (run.body "0.4.0")) _ _ _))
            _ _ _ _);
    [extracted | vm_compute; reflexivity ..].
Defined.

(** C1, as stated, fails: a CHECK that declares 0.3.1 to a plugin that
    supports 0.3.0 and 0.4.0 does not reach the check handler (the count
    of handler calls stays 0); it fails with IncompatibleCNIVersion. *)
Lemma check_0_3_1_is_below_the_floor :
  pluginMain (texts := run.texts) (run.disp (run.fullEnv "CHECK")) (run.handler None)
    (run.handler None) (run.handler None) (run.info ["0.3.0"; "0.4.0"]) EmptyString
    (run.world (run.body "0.3.1")) =
  Returns
    (Some (NewError ErrIncompatibleCNIVersion "config version does not allow CHECK"
             EmptyString))
    {| readers := [ {| pending := EmptyString; failure := None |} ];
       writers := [ EmptyString; EmptyString ];
       user := 0 |}.
Proof. vm_compute; reflexivity. Qed.

(** * Further properties of the dispatcher *)

(** When nothing is recorded as missing, no row of the table is missing. *)
Lemma missing_nil_inv (g : string -> string) :
  spec.missing g = [] ->
  Forall (fun r => spec.isMissing g r = false) spec.table.
Proof.
  unfold spec.missing. intros Hm. apply List.map_eq_nil in Hm.
  apply Forall_forall. intros r Hr.
  destruct (spec.isMissing g r) eqn:E; [|reflexivity].
  assert (Hin : List.In r (List.filter (spec.isMissing g) spec.table)).
  { apply List.filter_In. split; [|exact E]. apply list_elem_of_In. exact Hr. }
  rewrite Hm in Hin. destruct Hin.
Qed.

Section ExtractionMore.

Context {U : Type}.

(** What a returning extraction can have returned. *)
Lemma getCmdArgsFromEnv_inv (t t' : dispatcher U) (w w' : World U) (c : string)
  (oa : option CmdArgs) (oe : option Error) :
  getCmdArgsFromEnv t w = Returns (t', (c, oa, oe)) w' ->
  (Getenv t' = Getenv t /\ Stdout t' = Stdout t /\ Stderr t' = Stderr t
   /\ ConfVersionDecoder t' = ConfVersionDecoder t
   /\ VersionReconciler t' = VersionReconciler t
   /\ writers w' = writers w /\ user w' = user w)
  /\ ((oa = None /\ c = EmptyString
       /\ exists e : Error,
           oe = Some e /\ Details e = EmptyString
           /\ ((Code e = ErrMissingEnvironmentVariables
                /\ spec.missing (Getenv t) <> [] /\ w' = w)
               \/ (Code e = ErrFailedIO /\ spec.missing (Getenv t) = [])))
      \/ (oe = None /\ spec.missing (Getenv t) = [] /\ c = Getenv t "CNI_COMMAND"
          /\ exists body : string,
              oa = Some {| ContainerID := Getenv t "CNI_CONTAINERID";
                           Netns := Getenv t "CNI_NETNS";
                           IfName := Getenv t "CNI_IFNAME";
                           Args := Getenv t "CNI_ARGS";
                           Path := Getenv t "CNI_PATH";
                           StdinData := body |})).
Proof.
  unfold getCmdArgsFromEnv. rewrite scanVars_spec.
  destruct (spec.missing (Getenv t)) as [|n ns] eqn:Em.
  - cbn [List.length Nat.ltb Nat.leb cmd contID netns ifName args path].
    destruct (String.eqb (Getenv t "CNI_COMMAND") "VERSION") eqn:Ev.
    + unfold bind, ret, NewReader, ReadAll, setStdin; cbn.
      rewrite lookup_app_r by reflexivity. rewrite Nat.sub_diag. cbn.
      intros H; injection H as <- <- <- <- <-.
      apply String.eqb_eq in Ev.
      split; [easy|]. right. rewrite Ev. split_and!; try reflexivity. now eexists.
    + unfold bind, ret, ReadAll.
      destruct (readers w !! Stdin t) as [rd|]; [|discriminate].
      destruct (failure rd) as [e|].
      * intros H; injection H as <- <- <- <- <-.
        split; [easy|]. left. split_and!; try reflexivity.
        eexists. split_and!; try reflexivity. right. easy.
      * intros H; injection H as <- <- <- <- <-.
        split; [easy|]. right. split_and!; try reflexivity. now eexists.
  - cbn [List.length Nat.ltb Nat.leb]. unfold ret.
    intros H; injection H as <- <- <- <- <-.
    split; [easy|]. left. split_and!; try reflexivity.
    eexists. split_and!; try reflexivity. left. easy.
Qed.


(** X2: a request that extraction returns is complete.  Its command is
    the value of CNI_COMMAND and is not empty, its fields are the values
    of the variables, and every variable the table of [vars] requires for
    its command is non-empty: container, namespace, interface and path
    for ADD and CHECK; container, interface and path for DEL. *)
Theorem extracted_request_is_complete (t t' : dispatcher U) (w w' : World U)
  (c : string) (a : CmdArgs) :
  getCmdArgsFromEnv t w = Returns (t', (c, Some a, None)) w' ->
  (c = Getenv t "CNI_COMMAND" /\ c <> EmptyString
   /\ ContainerID a = Getenv t "CNI_CONTAINERID" /\ Netns a = Getenv t "CNI_NETNS"
   /\ IfName a = Getenv t "CNI_IFNAME" /\ Args a = Getenv t "CNI_ARGS"
   /\ Path a = Getenv t "CNI_PATH")
  /\ (c = "ADD" \/ c = "CHECK" ->
      ContainerID a <> EmptyString /\ Netns a <> EmptyString
      /\ IfName a <> EmptyString /\ Path a <> EmptyString)
  /\ (c = "DEL" ->
      ContainerID a <> EmptyString /\ IfName a <> EmptyString /\ Path a <> EmptyString).
Proof.
  intros H. destruct (getCmdArgsFromEnv_inv _ _ _ _ _ _ _ H) as [_ Hcase].
  destruct Hcase as [(Ha & _) | (_ & Hm & Hc & body & Ha)]; [discriminate|].
  injection Ha as ->. cbn [ContainerID Netns IfName Args Path].
  pose proof (missing_nil_inv _ Hm) as Hall.
  unfold spec.table in Hall.
  repeat match goal with
         | Hf : Forall _ (_ :: _) |- _ => apply Forall_cons_1 in Hf; destruct Hf as [? Hf]
         end.
  unfold spec.isMissing, spec.requiredFor in *.
  cbn [spec.param spec.forAdd spec.forCheck spec.forDelete] in *.
  rewrite <- Hc in *.
  assert (Hne : forall (x : string) (b : bool),
             String.eqb x EmptyString && b = false -> b = true -> x <> EmptyString).
  { intros x b Hx -> ->. discriminate Hx. }
  split; [|split].
  - split_and!; try reflexivity. intros ->. vm_compute in H0. discriminate H0.
  - intros [-> | ->]; split_and!; eapply Hne; try eassumption; reflexivity.
  - intros ->; split_and!; eapply Hne; try eassumption; reflexivity.
Qed.

(** X3: the namespace is required for ADD and CHECK and optional for DEL.
    With the container, the interface and the path set and the namespace
    empty, a DEL is extracted (whatever CNI_ARGS holds), and an ADD or a
    CHECK fails naming CNI_NETNS alone. *)
Theorem namespace_is_optional_for_delete_only (t : dispatcher U) (w : World U) (rd : Reader) :
  Getenv t "CNI_CONTAINERID" <> EmptyString ->
  Getenv t "CNI_IFNAME" <> EmptyString ->
  Getenv t "CNI_PATH" <> EmptyString ->
  Getenv t "CNI_NETNS" = EmptyString ->
  readers w !! Stdin t = Some rd ->
  failure rd = None ->
  (Getenv t "CNI_COMMAND" = "DEL" ->
   getCmdArgsFromEnv t w =
   Returns
     (t, ("DEL",
          Some {| ContainerID := Getenv t "CNI_CONTAINERID";
                  Netns := EmptyString;
                  IfName := Getenv t "CNI_IFNAME";
                  Args := Getenv t "CNI_ARGS";
                  Path := Getenv t "CNI_PATH";
                  StdinData := pending rd |},
          None))
     {| readers := <[Stdin t := {| pending := EmptyString; failure := None |}]> (readers w);
        writers := writers w;
        user := user w |})
  /\ (Getenv t "CNI_COMMAND" = "ADD" \/ Getenv t "CNI_COMMAND" = "CHECK" ->
      getCmdArgsFromEnv t w =
      Returns
        (t, (EmptyString, None,
             Some (NewError ErrMissingEnvironmentVariables
                     "required env variables [CNI_NETNS] missing" EmptyString)))
        w).
Proof.
  intros H1 H2 H3 Hn Hr Hf.
  apply String.eqb_neq in H1, H2, H3.
  assert (Hm : forall c : string,
             Getenv t "CNI_COMMAND" = c ->
             c = "DEL" \/ c = "ADD" \/ c = "CHECK" ->
             spec.missing (Getenv t) = if String.eqb c "DEL" then [] else ["CNI_NETNS"]).
  { intros c Hc Hcase. unfold spec.missing, spec.table, spec.isMissing, spec.requiredFor.
    cbn [List.filter List.map spec.param spec.forAdd spec.forCheck spec.forDelete].
    rewrite Hc, H1, H2, H3, Hn.
    destruct (String.eqb (Getenv t "CNI_ARGS") EmptyString);
      destruct Hcase as [-> | [-> | ->]]; vm_compute; reflexivity. }
  split.
  - intros Hc. rewrite (getCmdArgsFromEnv_reads t w rd).
    + now rewrite Hc, Hn.
    + rewrite (Hm _ Hc); [reflexivity | now left].
    + rewrite Hc. discriminate.
    + exact Hr.
    + exact Hf.
  - intros [Hc|Hc];
      rewrite (getCmdArgsFromEnv_fails t w "CNI_NETNS" []);
      [reflexivity | rewrite (Hm _ Hc); auto | reflexivity | rewrite (Hm _ Hc); auto].
Qed.

(** X4: extraction drains the input stream it reads.  After a request has
    been extracted for a command other than VERSION, a second extraction
    by the same dispatcher in the world the first one left returns the
    same request with an empty configuration body. *)
Theorem second_extraction_reads_nothing (t t' : dispatcher U) (w w' : World U)
  (c : string) (a : CmdArgs) :
  getCmdArgsFromEnv t w = Returns (t', (c, Some a, None)) w' ->
  c <> "VERSION" ->
  getCmdArgsFromEnv t' w' =
  Returns
    (t', (c,
          Some {| ContainerID := ContainerID a; Netns := Netns a; IfName := IfName a;
                  Args := Args a; Path := Path a; StdinData := EmptyString |},
          None))
    w'.
Proof.
  intros H Hv. pose proof H as H0.
  unfold getCmdArgsFromEnv in H. rewrite scanVars_spec in H.
  destruct (spec.missing (Getenv t)) as [|n ns] eqn:Em; [|discriminate].
  cbn [List.length Nat.ltb Nat.leb cmd contID netns ifName args path] in H.
  destruct (String.eqb (Getenv t "CNI_COMMAND") "VERSION") eqn:Ev.
  - exfalso. destruct (getCmdArgsFromEnv_inv _ _ _ _ _ _ _ H0) as [_ [(? & _)|(_ & _ & Hc & _)]];
      [discriminate|]. apply String.eqb_eq in Ev. congruence.
  - unfold bind, ret, ReadAll in H.
    destruct (readers w !! Stdin t) as [rd|] eqn:Er; [|discriminate].
    destruct (failure rd) as [e|] eqn:Ef; [discriminate|].
    injection H as <- <- <- <-.
    apply String.eqb_neq in Ev.
    rewrite (getCmdArgsFromEnv_reads t _ {| pending := EmptyString; failure := None |} Em Ev);
      cbn [readers writers user pending failure].
    + rewrite list_insert_insert_eq. reflexivity.
    + apply list_lookup_insert_eq. eapply lookup_lt_Some; exact Er.
    + reflexivity.
Qed.

End ExtractionMore.

(** ** More of the dispatch *)

Section DispatchMore.

Context {U : Type} {texts : ErrorTexts}.

Variables (cmdAdd cmdCheck cmdDel : Handler (U := U)).
Variable versionInfo : version.PluginInfo U.
Variable about : string.

(** Extraction for VERSION: a new empty reader is read in place of
    standard input. *)
Lemma getCmdArgsFromEnv_version (t : dispatcher U) (w : World U) :
  Getenv t "CNI_COMMAND" = "VERSION" ->
  getCmdArgsFromEnv t w =
  Returns
    (setStdin t (List.length (readers w)),
     ("VERSION",
      Some {| ContainerID := Getenv t "CNI_CONTAINERID";
              Netns := Getenv t "CNI_NETNS";
              IfName := Getenv t "CNI_IFNAME";
              Args := Getenv t "CNI_ARGS";
              Path := Getenv t "CNI_PATH";
              StdinData := EmptyString |},
      None))
    {| readers := (readers w ++ [{| pending := EmptyString; failure := None |}])%list;
       writers := writers w;
       user := user w |}.
Proof.
  intros Hc. unfold getCmdArgsFromEnv. rewrite scanVars_spec.
  rewrite missing_other_command by (rewrite Hc; discriminate).
  cbn [List.length Nat.ltb Nat.leb cmd]. rewrite Hc.
  unfold bind, ret, NewReader, ReadAll, setStdin; cbn.
  rewrite lookup_app_r by reflexivity. rewrite Nat.sub_diag. cbn.
  f_equal. f_equal.
  rewrite insert_app_r_alt by reflexivity. rewrite Nat.sub_diag. reflexivity.
Qed.

(** Extraction that fails to read standard input. *)
Lemma getCmdArgsFromEnv_read_fails (t : dispatcher U) (w : World U) (rd : Reader) (e : string) :
  spec.missing (Getenv t) = [] ->
  Getenv t "CNI_COMMAND" <> "VERSION" ->
  readers w !! Stdin t = Some rd ->
  failure rd = Some e ->
  getCmdArgsFromEnv t w =
  Returns
    (t, (EmptyString, None,
         Some (NewError ErrFailedIO ("error reading from stdin: " ++ e) EmptyString)))
    {| readers := <[Stdin t := {| pending := EmptyString; failure := Some e |}]> (readers w);
       writers := writers w;
       user := user w |}.
Proof.
  intros Hm Hv Hr Hf. unfold getCmdArgsFromEnv.
  rewrite scanVars_spec, Hm. cbn [List.length Nat.ltb Nat.leb cmd].
  apply String.eqb_neq in Hv. rewrite Hv.
  unfold bind, ret, ReadAll. rewrite Hr, Hf. reflexivity.
Qed.

(** An error of the extraction, the command variable being set, ends the
    dispatch. *)
Lemma pluginMain_extraction_error (t t' : dispatcher U) (w w' : World U) (c : string)
  (oa : option CmdArgs) (e : Error) :
  getCmdArgsFromEnv t w = Returns (t', (c, oa, Some e)) w' ->
  Getenv t "CNI_COMMAND" <> EmptyString \/ Code e <> ErrMissingEnvironmentVariables ->
  pluginMain t cmdAdd cmdCheck cmdDel versionInfo about w = Returns (Some e) w'.
Proof.
  intros He Hc. unfold pluginMain, bind at 1. rewrite He.
  destruct (getCmdArgsFromEnv_inv _ _ _ _ _ _ _ He) as [(Hg & _) _]. rewrite Hg.
  destruct Hc as [Hc|Hc].
  - apply String.eqb_neq in Hc. rewrite Hc, andb_false_r. reflexivity.
  - destruct (Code e); try reflexivity. congruence.
Qed.

(** The ADD and DEL cases of the switch. *)
Lemma pluginMain_add_del (t t' : dispatcher U) (w w' : World U) (c : string) (a : CmdArgs) :
  getCmdArgsFromEnv t w = Returns (t', (c, Some a, None)) w' ->
  validateConfig (StdinData a) = None ->
  (c = "ADD" ->
   pluginMain t cmdAdd cmdCheck cmdDel versionInfo about w =
   checkVersionAndCall t' (Some a) versionInfo cmdAdd w')
  /\ (c = "DEL" ->
      pluginMain t cmdAdd cmdCheck cmdDel versionInfo about w =
      checkVersionAndCall t' (Some a) versionInfo cmdDel w').
Proof.
  intros He Hv. split; intros ->;
    rewrite (pluginMain_validates _ _ _ _ _ _ _ _ _ _ _ He ltac:(discriminate)), Hv;
    reflexivity.
Qed.

(** X5: when reading standard input fails, extraction fails with FailedIO,
    the message carrying the text of the read error, and the dispatcher
    returns that error as it is: no handler runs, nothing is written, and
    the about string is not printed even when there is one. *)
Theorem stdin_failure_is_failed_io (t : dispatcher U) (w : World U) (rd : Reader) (e : string) :
  spec.missing (Getenv t) = [] ->
  Getenv t "CNI_COMMAND" <> "VERSION" ->
  readers w !! Stdin t = Some rd ->
  failure rd = Some e ->
  pluginMain t cmdAdd cmdCheck cmdDel versionInfo about w =
  Returns
    (Some (NewError ErrFailedIO ("error reading from stdin: " ++ e) EmptyString))
    {| readers := <[Stdin t := {| pending := EmptyString; failure := Some e |}]> (readers w);
       writers := writers w;
       user := user w |}.
Proof.
  intros Hm Hv Hr Hf.
  apply (pluginMain_extraction_error t t _ _ EmptyString None).
  - exact (getCmdArgsFromEnv_read_fails t w rd e Hm Hv Hr Hf).
  - right. discriminate.
Qed.

(** X6: with the command variable set, whatever error extraction returns
    is the result of the dispatcher, unchanged, in the world extraction
    left: the about string is printed for an empty command only. *)
Theorem extraction_error_is_returned (t t' : dispatcher U) (w w' : World U) (c : string)
  (oa : option CmdArgs) (e : Error) :
  Getenv t "CNI_COMMAND" <> EmptyString ->
  getCmdArgsFromEnv t w = Returns (t', (c, oa, Some e)) w' ->
  pluginMain t cmdAdd cmdCheck cmdDel versionInfo about w = Returns (Some e) w'
  /\ writers w' = writers w.
Proof.
  intros Hc He. split.
  - apply (pluginMain_extraction_error t t' w w' c oa e He). now left.
  - destruct (getCmdArgsFromEnv_inv _ _ _ _ _ _ _ He) as [(_ & _ & _ & _ & _ & Hw & _) _].
    exact Hw.
Qed.

(** X7: an ADD runs the add handler and a DEL the delete handler, on the
    extracted request, once validation and the version check have passed;
    the result of the dispatcher is the handler's: a typed error as it
    is, any other error wrapped as FailedPluginCall, a panic as a panic.
    The other handlers do not run. *)
Theorem add_and_del_run_their_handler (t t' : dispatcher U) (w w' : World U) (c : string)
  (a : CmdArgs) (cv : string) :
  getCmdArgsFromEnv t w = Returns (t', (c, Some a, None)) w' ->
  validateConfig (StdinData a) = None ->
  version.Decode (ConfVersionDecoder t') (StdinData a) = inr cv ->
  version.Check (VersionReconciler t') cv versionInfo = None ->
  let outcome (h : Handler) :=
    match h a w' with
    | Returns (Some (TypesError e)) w'' => Returns e w''
    | Returns (Some (OtherError msg)) w'' =>
        Returns (Some (NewError ErrFailedPluginCall msg EmptyString)) w''
    | Returns None w'' => Returns None w''
    | Panics => Panics
    end in
  (c = "ADD" -> pluginMain t cmdAdd cmdCheck cmdDel versionInfo about w = outcome cmdAdd)
  /\ (c = "DEL" -> pluginMain t cmdAdd cmdCheck cmdDel versionInfo about w = outcome cmdDel).
Proof.
  intros He Hv Hd Hc outcome.
  destruct (pluginMain_add_del _ _ _ _ _ _ He Hv) as [Ha Hdel].
  assert (Hrun : forall h : Handler,
             checkVersionAndCall t' (Some a) versionInfo h w' = outcome h).
  { intros h. unfold checkVersionAndCall, bind, deref, ret, outcome. rewrite Hd, Hc.
    destruct (h a w') as [[[e|msg]|] w''|]; reflexivity. }
  split; intros Hcmd; [rewrite (Ha Hcmd) | rewrite (Hdel Hcmd)]; apply Hrun.
Qed.

(** X8: in an ADD or a DEL, a configuration whose version cannot be
    decoded fails with FailedDecode, and one whose version the
    reconciler rejects fails with IncompatibleCNIVersion carrying the
    reconciler's details; in both cases the world is as extraction left
    it, whatever the handlers are: none has run. *)
Theorem add_and_del_check_the_version_first (t t' : dispatcher U) (w w' : World U)
  (c : string) (a : CmdArgs) :
  getCmdArgsFromEnv t w = Returns (t', (c, Some a, None)) w' ->
  validateConfig (StdinData a) = None ->
  c = "ADD" \/ c = "DEL" ->
  (forall e : string,
      version.Decode (ConfVersionDecoder t') (StdinData a) = inl e ->
      pluginMain t cmdAdd cmdCheck cmdDel versionInfo about w =
      Returns (Some (NewError ErrFailedDecode e EmptyString)) w')
  /\ (forall (cv : string) (verErr : version.ErrorIncompatible),
         version.Decode (ConfVersionDecoder t') (StdinData a) = inr cv ->
         version.Check (VersionReconciler t') cv versionInfo = Some verErr ->
         pluginMain t cmdAdd cmdCheck cmdDel versionInfo about w =
         Returns
           (Some (NewError ErrIncompatibleCNIVersion "incompatible CNI versions"
                    (version.Details verErr)))
           w').
Proof.
  intros He Hv Hcmd.
  destruct (pluginMain_add_del _ _ _ _ _ _ He Hv) as [Ha Hdel].
  split.
  - intros e Hd. destruct Hcmd as [Hcmd|Hcmd]; [rewrite (Ha Hcmd) | rewrite (Hdel Hcmd)];
      unfold checkVersionAndCall, bind, deref, ret; rewrite Hd; reflexivity.
  - intros cv verErr Hd Hc.
    destruct Hcmd as [Hcmd|Hcmd]; [rewrite (Ha Hcmd) | rewrite (Hdel Hcmd)];
      unfold checkVersionAndCall, bind, deref, ret; rewrite Hd, Hc; reflexivity.
Qed.

(** X9: a VERSION request, from the environment to the result: whatever
    the other variables and standard input are, the configuration is not
    validated and no handler runs; the plugin's version document is
    encoded to the dispatcher's standard output, and an error of the
    encoder comes back as FailedEncode. *)
Theorem version_request_encodes (t : dispatcher U) (w : World U) :
  Getenv t "CNI_COMMAND" = "VERSION" ->
  pluginMain t cmdAdd cmdCheck cmdDel versionInfo about w =
  match version.Encode versionInfo (Stdout t)
          {| readers := (readers w ++ [{| pending := EmptyString; failure := None |}])%list;
             writers := writers w;
             user := user w |} with
  | Returns (Some e) w' => Returns (Some (NewError ErrFailedEncode e EmptyString)) w'
  | Returns None w' => Returns None w'
  | Panics => Panics
  end.
Proof.
  intros Hc. unfold pluginMain, bind at 1. rewrite (getCmdArgsFromEnv_version t w Hc).
  cbn [String.eqb Ascii.eqb Bool.eqb negb]. unfold bind at 1, ret at 1.
  unfold dispatch. cbn [String.eqb Ascii.eqb Bool.eqb setStdin Stdout].
  unfold bind, ret.
  destruct (version.Encode versionInfo (Stdout t) _) as [[e|] w'|]; reflexivity.
Qed.

(** X10: in a CHECK whose declared version passes the floor, when every
    version the plugin supports is below the declared one (in particular
    when it supports none) the dispatch fails with
    IncompatibleCNIVersion, and the check handler does not run. *)
Theorem check_no_supported_version_reaches (t t' : dispatcher U) (w w' : World U)
  (a : CmdArgs) (cv : string) :
  getCmdArgsFromEnv t w = Returns (t', ("CHECK", Some a, None)) w' ->
  validateConfig (StdinData a) = None ->
  version.Decode (ConfVersionDecoder t') (StdinData a) = inr cv ->
  version.GreaterThanOrEqualTo cv "0.4.0" = inr true ->
  Forall (fun p => version.GreaterThanOrEqualTo p cv = inr false)
    (version.SupportedVersions versionInfo) ->
  pluginMain t cmdAdd cmdCheck cmdDel versionInfo about w =
  Returns
    (Some (NewError ErrIncompatibleCNIVersion "plugin version does not allow CHECK"
             EmptyString))
    w'.
Proof.
  intros He Hv Hd Hf Hall.
  rewrite (pluginMain_validates _ _ _ _ _ _ _ _ _ _ _ He ltac:(discriminate)), Hv.
  rewrite (dispatch_check _ _ _ _ _ _ _ _ Hd Hf).
  rewrite <- (app_nil_r (version.SupportedVersions versionInfo)).
  rewrite (checkSupported_skip _ _ _ _ _ _ _ _ Hall). reflexivity.
Qed.

(** X11: in a CHECK, a configuration whose version cannot be decoded, or
    whose declared version is not a well-formed version, fails with
    FailedDecode before the floor is applied; the supported versions are
    not looked at and the check handler does not run. *)
Theorem check_undecodable_version (t t' : dispatcher U) (w w' : World U) (a : CmdArgs) :
  getCmdArgsFromEnv t w = Returns (t', ("CHECK", Some a, None)) w' ->
  validateConfig (StdinData a) = None ->
  (forall e : string,
      version.Decode (ConfVersionDecoder t') (StdinData a) = inl e ->
      pluginMain t cmdAdd cmdCheck cmdDel versionInfo about w =
      Returns (Some (NewError ErrFailedDecode e EmptyString)) w')
  /\ (forall cv : string,
         version.Decode (ConfVersionDecoder t') (StdinData a) = inr cv ->
         version.ParseVersion cv = None ->
         pluginMain t cmdAdd cmdCheck cmdDel versionInfo about w =
         Returns (Some (NewError ErrFailedDecode (versionErrorText cv) EmptyString)) w').
Proof.
  intros He Hv.
  split; [intros e Hd | intros cv Hd Hp];
    rewrite (pluginMain_validates _ _ _ _ _ _ _ _ _ _ _ He ltac:(discriminate)), Hv;
    unfold dispatch; cbn [String.eqb Ascii.eqb Bool.eqb];
    unfold bind, deref, ret; rewrite Hd; [reflexivity|].
  unfold version.GreaterThanOrEqualTo. rewrite Hp. reflexivity.
Qed.

End DispatchMore.

(** ** More of the validation *)

(** Members none of which is a type error for the field: the field ends
    as the last string stored in it. *)
Lemma storeMembers_strings (name : string) (ms : list (string * json.Value)) (cur : string) :
  Forall (fun kv => json.equalFold name (fst kv) = true ->
                    (exists s : string, snd kv = json.Str s) \/ snd kv = json.Null) ms ->
  exists s : string, json.storeMembers name ms cur None = (None, s).
Proof.
  intros H. revert cur. induction H as [|[k v] ms Hkv _ IH]; intros cur.
  - now exists cur.
  - cbn [json.storeMembers]. destruct (json.equalFold name k) eqn:Ek; [|apply IH].
    destruct (Hkv Ek) as [[s Hv]|Hv]; cbn [snd] in Hv; subst v; apply IH.
Qed.

(** Members that store nothing: the field and the saved error stay. *)
Lemma storeMembers_nulls (name : string) (ms : list (string * json.Value)) (cur : string)
  (saved : option json.Error) :
  Forall (fun kv => json.equalFold name (fst kv) = true -> snd kv = json.Null) ms ->
  json.storeMembers name ms cur saved = (saved, cur).
Proof.
  induction 1 as [|[k v] ms Hkv _ IH]; [reflexivity|].
  cbn [json.storeMembers]. destruct (json.equalFold name k) eqn:Ek; [|exact IH].
  cbn [snd] in Hkv. rewrite (Hkv Ek). exact IH.
Qed.

Lemma storeMembers_app (name : string) (pre post : list (string * json.Value)) (cur : string)
  (saved : option json.Error) :
  json.storeMembers name (pre ++ post)%list cur saved =
  let '(saved', cur') := json.storeMembers name pre cur saved in
  json.storeMembers name post cur' saved'.
Proof.
  revert cur saved. induction pre as [|[k v] pre IH]; intros cur saved.
  - cbn. reflexivity.
  - cbn [app json.storeMembers]. destruct (json.equalFold name k); [|apply IH].
    destruct (json.storeString v cur saved) as [saved' cur']. apply IH.
Qed.

(** Once an error is saved it is the error returned. *)
Lemma storeMembers_saved (name : string) (ms : list (string * json.Value)) (cur : string)
  (e : json.Error) :
  fst (json.storeMembers name ms cur (Some e)) = Some e.
Proof.
  revert cur. induction ms as [|[k v] ms IH]; intros cur; [reflexivity|].
  cbn [json.storeMembers]. destruct (json.equalFold name k); [|apply IH].
  destruct v; cbn [json.storeString json.saveError]; apply IH.
Qed.

Section Validation.

Context {texts : ErrorTexts}.



(** The errors of the validation. *)
Lemma validateConfig_errors (body : string) (e : Error) :
  validateConfig body = Some e ->
  Code e = ErrFailedDecode \/ Code e = ErrInvalidNetworkConfig.
Proof.
  unfold validateConfig.
  destruct (json.Unmarshal "name" body EmptyString) as [[je|] confName].
  - intros H; injection H as <-. now left.
  - destruct (String.eqb confName EmptyString); [|discriminate].
    intros H; injection H as <-. now right.
Qed.

End Validation.

(** ** The dispatcher as a whole *)

Section Whole.

Context {U : Type} {texts : ErrorTexts}.

Variables (cmdAdd cmdCheck cmdDel : Handler (U := U)).
Variable versionInfo : version.PluginInfo U.
Variable about : string.

(** Extraction panics only on a reader that is not there. *)
Lemma getCmdArgsFromEnv_no_panic (t : dispatcher U) (w : World U) :
  is_Some (readers w !! Stdin t) ->
  getCmdArgsFromEnv t w <> Panics.
Proof.
  intros [rd Hr]. unfold getCmdArgsFromEnv. rewrite scanVars_spec.
  destruct (spec.missing (Getenv t)) as [|n ns]; [|discriminate].
  cbn [List.length Nat.ltb Nat.leb].
  destruct (String.eqb _ "VERSION").
  - unfold bind, ret, NewReader, ReadAll, setStdin; cbn.
    rewrite lookup_app_r by reflexivity. rewrite Nat.sub_diag. cbn. discriminate.
  - unfold bind, ret, ReadAll. rewrite Hr. destruct (failure rd); discriminate.
Qed.

Lemma checkVersionAndCall_no_panic (t : dispatcher U) (a : CmdArgs) (h : Handler)
  (w : World U) :
  (forall (a0 : CmdArgs) (w0 : World U), h a0 w0 <> Panics) ->
  checkVersionAndCall t (Some a) versionInfo h w <> Panics.
Proof.
  intros Hh. unfold checkVersionAndCall, bind, deref, ret.
  destruct (version.Decode _ _) as [e|cv]; [discriminate|].
  destruct (version.Check _ _ _); [discriminate|].
  specialize (Hh a w). destruct (h a w) as [[[e|msg]|] w'|]; try discriminate.
  contradiction.
Qed.

Lemma checkSupported_no_panic (t : dispatcher U) (a : CmdArgs) (cv : string)
  (supported : list string) (w : World U) :
  (forall (a0 : CmdArgs) (w0 : World U), cmdCheck a0 w0 <> Panics) ->
  checkSupported t (Some a) versionInfo cmdCheck cv supported w <> Panics.
Proof.
  intros Hh. induction supported as [|v rest IH]; [discriminate|].
  cbn [checkSupported].
  destruct (version.GreaterThanOrEqualTo v cv) as [e|[|]]; [discriminate | | exact IH].
  now apply checkVersionAndCall_no_panic.
Qed.

Lemma dispatch_no_panic (t : dispatcher U) (c : string) (a : CmdArgs) (w : World U) :
  (forall (a0 : CmdArgs) (w0 : World U), cmdAdd a0 w0 <> Panics) ->
  (forall (a0 : CmdArgs) (w0 : World U), cmdCheck a0 w0 <> Panics) ->
  (forall (a0 : CmdArgs) (w0 : World U), cmdDel a0 w0 <> Panics) ->
  (forall (wr : nat) (w0 : World U), version.Encode versionInfo wr w0 <> Panics) ->
  dispatch t cmdAdd cmdCheck cmdDel versionInfo c (Some a) w <> Panics.
Proof.
  intros Ha Hc Hd He. unfold dispatch.
  destruct (String.eqb c "ADD"); [now apply checkVersionAndCall_no_panic|].
  destruct (String.eqb c "CHECK").
  { unfold bind, deref, ret.
    destruct (version.Decode _ _) as [e|cv]; [discriminate|].
    destruct (version.GreaterThanOrEqualTo cv "0.4.0") as [e|[|]]; try discriminate.
    now apply checkSupported_no_panic. }
  destruct (String.eqb c "DEL"); [now apply checkVersionAndCall_no_panic|].
  destruct (String.eqb c "VERSION"); [|discriminate].
  unfold bind, ret. specialize (He (Stdout t) w).
  destruct (version.Encode versionInfo (Stdout t) w) as [[e|] w'|]; try discriminate.
  contradiction.
Qed.


(** X15: a command that is not empty and is none of ADD, CHECK, DEL and
    VERSION never succeeds and requires no variable: whatever the other
    variables hold, standard input is read to its end and the dispatcher
    returns an error, that of the validation (FailedDecode or
    InvalidNetworkConfig) or else UnknownCommand; no handler runs and
    nothing is written. *)
Theorem unrecognised_command_always_fails (t : dispatcher U) (w : World U) (rd : Reader) :
  Getenv t "CNI_COMMAND" <> EmptyString ->
  Getenv t "CNI_COMMAND" <> "ADD" ->
  Getenv t "CNI_COMMAND" <> "CHECK" ->
  Getenv t "CNI_COMMAND" <> "DEL" ->
  Getenv t "CNI_COMMAND" <> "VERSION" ->
  readers w !! Stdin t = Some rd ->
  failure rd = None ->
  exists e : Error,
    pluginMain t cmdAdd cmdCheck cmdDel versionInfo about w =
    Returns (Some e)
      {| readers := <[Stdin t := {| pending := EmptyString; failure := None |}]> (readers w);
         writers := writers w;
         user := user w |}
    /\ (Code e = ErrFailedDecode \/ Code e = ErrInvalidNetworkConfig
        \/ (validateConfig (pending rd) = None
            /\ e = NewError ErrUnknownCommand
                     ("unknown CNI_COMMAND: " ++ Getenv t "CNI_COMMAND") EmptyString)).
Proof.
  intros H0 H1 H2 H3 H4 Hr Hf.
  pose proof (getCmdArgsFromEnv_reads t w rd
                (missing_other_command _ H0 H1 H2 H3) H4 Hr Hf) as He.
  rewrite (pluginMain_validates _ _ _ _ _ _ _ _ _ _ _ He H4). cbn [StdinData].
  destruct (validateConfig (pending rd)) as [e|] eqn:Ev.
  - exists e. split; [reflexivity|].
    destruct (validateConfig_errors _ _ Ev) as [Hc|Hc]; auto.
  - eexists. split.
    + unfold dispatch. apply String.eqb_neq in H1, H2, H3, H4.
      rewrite H1, H2, H3, H4. reflexivity.
    + right. right. split; reflexivity.
Qed.

(** X16: what a successful ADD or DEL means.  When the dispatcher returns
    no error for one of these commands, every variable the command
    requires was set, the configuration on standard input passed
    validation, its version was decoded and accepted by the reconciler,
    and the command's handler ran on the extracted request, in the world
    extraction left, and returned no error (or a nil typed error). *)
Theorem success_means_the_handler_succeeded (t : dispatcher U) (w w'' : World U) :
  Getenv t "CNI_COMMAND" = "ADD" \/ Getenv t "CNI_COMMAND" = "DEL" ->
  pluginMain t cmdAdd cmdCheck cmdDel versionInfo about w = Returns None w'' ->
  exists (a : CmdArgs) (w' : World U) (cv : string),
    getCmdArgsFromEnv t w = Returns (t, (Getenv t "CNI_COMMAND", Some a, None)) w'
    /\ spec.missing (Getenv t) = []
    /\ validateConfig (StdinData a) = None
    /\ version.Decode (ConfVersionDecoder t) (StdinData a) = inr cv
    /\ version.Check (VersionReconciler t) cv versionInfo = None
    /\ let h := if String.eqb (Getenv t "CNI_COMMAND") "ADD" then cmdAdd else cmdDel in
       h a w' = Returns None w'' \/ h a w' = Returns (Some (TypesError None)) w''.
Proof.
  intros Hcmd Hrun.
  assert (Hv : Getenv t "CNI_COMMAND" <> "VERSION").
  { destruct Hcmd as [-> | ->]; discriminate. }
  assert (Hne : Getenv t "CNI_COMMAND" <> EmptyString).
  { destruct Hcmd as [-> | ->]; discriminate. }
  destruct (getCmdArgsFromEnv t w) as [[t' [[c oa] oe]] w'|] eqn:Ex;
    [|unfold pluginMain, bind at 1 in Hrun; rewrite Ex in Hrun; discriminate].
  destruct (getCmdArgsFromEnv_inv _ _ _ _ _ _ _ Ex) as [_ Hcase].
  destruct Hcase as [(-> & -> & e & -> & _) | (-> & Hm & -> & body & ->)].
  { rewrite (pluginMain_extraction_error cmdAdd cmdCheck cmdDel versionInfo about
               _ _ _ _ _ _ _ Ex (or_introl Hne)) in Hrun. discriminate. }
  assert (Ht : t' = t).
  { unfold getCmdArgsFromEnv in Ex. rewrite scanVars_spec, Hm in Ex.
    cbn [List.length Nat.ltb Nat.leb cmd] in Ex.
    apply String.eqb_neq in Hv. rewrite Hv in Ex.
    unfold bind, ret, ReadAll in Ex.
    destruct (readers w !! Stdin t) as [rd|]; [|discriminate].
    destruct (failure rd); injection Ex as <-; reflexivity. }
  subst t'.
  rewrite (pluginMain_validates _ _ _ _ _ _ _ _ _ _ _ Ex Hv) in Hrun.
  destruct (validateConfig _) as [e|] eqn:Eval; [discriminate|].
  set (a := {| ContainerID := Getenv t "CNI_CONTAINERID"; Netns := Getenv t "CNI_NETNS";
               IfName := Getenv t "CNI_IFNAME"; Args := Getenv t "CNI_ARGS";
               Path := Getenv t "CNI_PATH"; StdinData := body |}) in *.
  assert (Hd : dispatch t cmdAdd cmdCheck cmdDel versionInfo (Getenv t "CNI_COMMAND") (Some a) w' =
               checkVersionAndCall t (Some a) versionInfo
                 (if String.eqb (Getenv t "CNI_COMMAND") "ADD" then cmdAdd else cmdDel) w').
  { destruct Hcmd as [-> | ->]; reflexivity. }
  rewrite Hd in Hrun. clear Hd.
  unfold checkVersionAndCall, bind, deref, ret in Hrun.
  destruct (version.Decode (ConfVersionDecoder t) (StdinData a)) as [e|cv] eqn:Edec;
    [discriminate|].
  destruct (version.Check (VersionReconciler t) cv versionInfo) eqn:Echk; [discriminate|].
  exists a, w', cv. split_and!; try reflexivity; try assumption.
  cbv zeta.
  destruct ((if String.eqb (Getenv t "CNI_COMMAND") "ADD" then cmdAdd else cmdDel) a w')
    as [[[[e|]|msg]|] w3|]; try discriminate; injection Hrun as <-; auto.
Qed.

End Whole.

Section Inversions.

Context {U : Type} {texts : ErrorTexts}.

Variables (cmdAdd cmdCheck cmdDel : Handler (U := U)).
Variable versionInfo : version.PluginInfo U.
Variable about : string.

(** The field after the members is the field before them or a string
    that a member of the field's name holds. *)
Lemma storeMembers_field (name : string) (ms : list (string * json.Value)) (cur s : string)
  (saved e : option json.Error) :
  json.storeMembers name ms cur saved = (e, s) ->
  s = cur
  \/ exists k : string, In (k, json.Str s) ms /\ json.equalFold name k = true.
Proof.
  revert cur saved. induction ms as [|[k v] ms IH]; intros cur saved H.
  - cbn in H. injection H as _ <-. now left.
  - cbn [json.storeMembers] in H. destruct (json.equalFold name k) eqn:Ek.
    + destruct (json.storeString v cur saved) as [saved' cur'] eqn:Es.
      destruct (IH _ _ H) as [->|(k' & Hin & Hk')].
      * destruct v; cbn in Es; injection Es as _ <-; try (now left).
        right. exists k. split; [now left | exact Ek].
      * right. exists k'. split; [now right | exact Hk'].
    + destruct (IH _ _ H) as [->|(k' & Hin & Hk')]; [now left|].
      right. exists k'. split; [now right | exact Hk'].
Qed.

(** X17: a configuration that passes the validation is a JSON object
    with a member named [name] (letter case ignored) whose value is a
    non-empty string. *)
Theorem validateConfig_accepted_has_name (body : string) :
  validateConfig body = None ->
  exists (ms : list (string * json.Value)) (rest k s : string),
    json.parse body = json.Ok (json.Object ms) rest
    /\ In (k, json.Str s) ms
    /\ json.equalFold "name" k = true
    /\ s <> EmptyString.
Proof.
  unfold validateConfig, json.Unmarshal.
  destruct (json.parse body) as [v rest| |]; [|discriminate..].
  destruct v as [| | | | |ms]; cbn [json.storeStruct]; try discriminate.
  destruct (json.storeMembers "name" ms EmptyString None) as [[e|] s] eqn:Es; [discriminate|].
  destruct (String.eqb_spec s EmptyString) as [->|Hs]; [discriminate|].
  intros _. destruct (storeMembers_field _ _ _ _ _ _ Es) as [->|(k & Hin & Hk)]; [congruence|].
  now exists ms, rest, k, s.
Qed.

(** The search of the CHECK case returns no error only through the
    call of the check handler, for a supported version that is not below
    the declared one. *)
Lemma checkSupported_success (t : dispatcher U) (a : CmdArgs) (cv : string)
  (supported : list string) (w w'' : World U) :
  checkSupported t (Some a) versionInfo cmdCheck cv supported w = Returns None w'' ->
  (exists v : string, In v supported /\ version.GreaterThanOrEqualTo v cv = inr true)
  /\ checkVersionAndCall t (Some a) versionInfo cmdCheck w = Returns None w''.
Proof.
  induction supported as [|v rest IH]; [discriminate|].
  cbn [checkSupported].
  destruct (version.GreaterThanOrEqualTo v cv) as [e|[|]] eqn:Eg; [discriminate | |].
  - intros H. split; [|exact H]. exists v. split; [now left | exact Eg].
  - intros H. destruct (IH H) as [(v' & Hin & Hv') Hrun].
    split; [|exact Hrun]. exists v'. split; [now right | exact Hv'].
Qed.

(** X18: what a successful CHECK means.  When the dispatcher returns no
    error for a CHECK, the configuration passed validation, the version
    it declares is 0.4.0 or later, the plugin supports a version not
    below the declared one, the reconciler accepted the declared
    version, and the check handler ran on the extracted request and
    returned no error (or a nil typed error). *)
Theorem successful_check_passed_every_test (t : dispatcher U) (w w'' : World U) :
  Getenv t "CNI_COMMAND" = "CHECK" ->
  pluginMain t cmdAdd cmdCheck cmdDel versionInfo about w = Returns None w'' ->
  exists (a : CmdArgs) (w' : World U) (cv v : string),
    getCmdArgsFromEnv t w = Returns (t, ("CHECK", Some a, None)) w'
    /\ validateConfig (StdinData a) = None
    /\ version.Decode (ConfVersionDecoder t) (StdinData a) = inr cv
    /\ version.GreaterThanOrEqualTo cv "0.4.0" = inr true
    /\ In v (version.SupportedVersions versionInfo)
    /\ version.GreaterThanOrEqualTo v cv = inr true
    /\ version.Check (VersionReconciler t) cv versionInfo = None
    /\ (cmdCheck a w' = Returns None w''
        \/ cmdCheck a w' = Returns (Some (TypesError None)) w'').
Proof.
  intros Hcmd Hrun.
  assert (Hv : Getenv t "CNI_COMMAND" <> "VERSION") by (rewrite Hcmd; discriminate).
  assert (Hne : Getenv t "CNI_COMMAND" <> EmptyString) by (rewrite Hcmd; discriminate).
  destruct (getCmdArgsFromEnv t w) as [[t' [[c oa] oe]] w'|] eqn:Ex;
    [|unfold pluginMain, bind at 1 in Hrun; rewrite Ex in Hrun; discriminate].
  destruct (getCmdArgsFromEnv_inv _ _ _ _ _ _ _ Ex) as [_ Hcase].
  destruct Hcase as [(-> & -> & e & -> & _) | (-> & Hm & -> & body & ->)].
  { rewrite (pluginMain_extraction_error cmdAdd cmdCheck cmdDel versionInfo about
               _ _ _ _ _ _ _ Ex (or_introl Hne)) in Hrun. discriminate. }
  assert (Ht : t' = t).
  { unfold getCmdArgsFromEnv in Ex. rewrite scanVars_spec, Hm in Ex.
    cbn [List.length Nat.ltb Nat.leb cmd] in Ex.
    apply String.eqb_neq in Hv. rewrite Hv in Ex.
    unfold bind, ret, ReadAll in Ex.
    destruct (readers w !! Stdin t) as [rd|]; [|discriminate].
    destruct (failure rd); injection Ex as <-; reflexivity. }
  subst t'.
  rewrite (pluginMain_validates _ _ _ _ _ _ _ _ _ _ _ Ex Hv) in Hrun.
  destruct (validateConfig _) as [e|] eqn:Eval; [discriminate|].
  rewrite Hcmd in *.
  set (a := {| ContainerID := Getenv t "CNI_CONTAINERID"; Netns := Getenv t "CNI_NETNS";
               IfName := Getenv t "CNI_IFNAME"; Args := Getenv t "CNI_ARGS";
               Path := Getenv t "CNI_PATH"; StdinData := body |}) in *.
  unfold dispatch in Hrun. cbn [String.eqb Ascii.eqb Bool.eqb] in Hrun.
  unfold bind at 1, deref, ret at 1 in Hrun.
  destruct (version.Decode (ConfVersionDecoder t) (StdinData a)) as [e|cv] eqn:Edec;
    [discriminate|].
  destruct (version.GreaterThanOrEqualTo cv "0.4.0") as [e|[|]] eqn:Efloor;
    [discriminate | | discriminate].
  destruct (checkSupported_success _ _ _ _ _ _ Hrun) as [(v & Hin & Hgte) Hcall].
  unfold checkVersionAndCall, bind, deref, ret in Hcall. rewrite Edec in Hcall.
  destruct (version.Check (VersionReconciler t) cv versionInfo) eqn:Echk; [discriminate|].
  exists a, w', cv, v. split_and!; try reflexivity; try assumption.
  destruct (cmdCheck a w') as [[[[e|]|msg]|] w3|]; try discriminate;
    injection Hcall as <-; auto.
Qed.

End Inversions.

(** ** The scan always finishes *)

Module scan.

Import json.

Lemma skipSpace_length (s : string) : String.length (skipSpace s) <= String.length s.
Proof.
  induction s as [|c s IH]; cbn [skipSpace]; [lia|].
  destruct (isSpace c); cbn [String.length] in *; lia.
Qed.

Lemma consPiece_inv (p : Piece) (r : option (list Piece * string)) (ps : list Piece)
  (rest : string) :
  consPiece p r = Some (ps, rest) -> exists ps' : list Piece, r = Some (ps', rest).
Proof.
  destruct r as [[ps' rest']|]; cbn; [|discriminate].
  intros H; injection H as _ <-. now exists ps'.
Qed.

Lemma pieces_length (n : nat) (s : string) (ps : list Piece) (rest : string) :
  String.length s <= n ->
  pieces s = Some (ps, rest) ->
  String.length rest < String.length s.
Proof.
  revert s ps rest. induction n as [|n IH]; intros s ps rest Hn.
  - destruct s; [discriminate | cbn in Hn; lia].
  - destruct s as [|c s1]; [discriminate|]. cbn [pieces String.length] in *.
    destruct (Ascii.eqb c quote).
    { intros H; injection H as _ <-. lia. }
    destruct (Ascii.eqb c backslash).
    { destruct s1 as [|e s2]; [discriminate|]. cbn [String.length] in *.
      destruct (Ascii.eqb e "u"%char).
      - destruct s2 as [|h1 [|h2 [|h3 [|h4 s6]]]]; try discriminate.
        cbn [String.length] in *.
        destruct (hex4 h1 h2 h3 h4); [|discriminate].
        intros H. apply consPiece_inv in H. destruct H as [ps' H].
        apply IH in H; lia.
      - destruct (escaped e); [|discriminate].
        intros H. apply consPiece_inv in H. destruct H as [ps' H].
        apply IH in H; lia. }
    destruct (code c <? 32)%N; [discriminate|].
    intros H. apply consPiece_inv in H. destruct H as [ps' H].
    apply IH in H; lia.
Qed.

Lemma stringLit_length (s str rest : string) :
  stringLit s = Ok str rest -> String.length rest < String.length s.
Proof.
  unfold stringLit. destruct (pieces s) as [[ps r]|] eqn:E; [|discriminate].
  intros H; injection H as _ <-. exact (pieces_length _ _ _ _ (le_n _) E).
Qed.

Lemma stringLit_fuel (s : string) : stringLit s <> OutOfFuel.
Proof. unfold stringLit. destruct (pieces s) as [[ps r]|]; discriminate. Qed.

Lemma digits_length (s ds rest : string) :
  digits s = (ds, rest) -> String.length rest <= String.length s.
Proof.
  revert ds rest. induction s as [|c s IH]; intros ds rest; cbn [digits].
  - intros H; injection H as _ <-. lia.
  - destruct (isDigit c).
    + destruct (digits s) as [ds' rest'] eqn:E. intros H; injection H as _ <-.
      specialize (IH _ _ eq_refl). cbn [String.length]. lia.
    + intros H; injection H as _ <-. lia.
Qed.

Lemma digits1_length (s ds rest : string) :
  digits1 s = Some (ds, rest) -> String.length rest <= String.length s.
Proof.
  unfold digits1. destruct (digits s) as [d r] eqn:E.
  destruct d; [discriminate|]. intros H; injection H as _ <-.
  exact (digits_length _ _ _ E).
Qed.

Lemma intPart_length (s i rest : string) :
  intPart s = Some (i, rest) -> String.length rest < String.length s.
Proof.
  destruct s as [|c s]; [discriminate|]. cbn [intPart String.length].
  destruct (Ascii.eqb c "0"%char).
  { intros H; injection H as _ <-. lia. }
  destruct (between 49 57 c); [|discriminate].
  destruct (digits s) as [ds r] eqn:E. intros H; injection H as _ <-.
  apply digits_length in E. lia.
Qed.

Lemma fracPart_length (s f rest : string) :
  fracPart s = Some (f, rest) -> String.length rest <= String.length s.
Proof.
  destruct s as [|c s]; cbn [fracPart String.length].
  { intros H; injection H as _ <-. cbn. lia. }
  destruct (Ascii.eqb c "."%char).
  - destruct (digits1 s) as [[ds r]|] eqn:E; [|discriminate].
    intros H; injection H as _ <-. apply digits1_length in E. lia.
  - intros H; injection H as _ <-. cbn. lia.
Qed.

Lemma expPart_length (s e rest : string) :
  expPart s = Some (e, rest) -> String.length rest <= String.length s.
Proof.
  destruct s as [|c s]; cbn [expPart String.length].
  { intros H; injection H as _ <-. cbn. lia. }
  destruct (Ascii.eqb c "e"%char || Ascii.eqb c "E"%char).
  - destruct s as [|g s']; [discriminate|]. cbn [String.length].
    destruct (Ascii.eqb g "+"%char || Ascii.eqb g "-"%char).
    + destruct (digits1 s') as [[ds r]|] eqn:E; [|discriminate].
      intros H; injection H as _ <-. apply digits1_length in E. lia.
    + destruct (digits1 (String g s')) as [[ds r]|] eqn:E; [|discriminate].
      intros H; injection H as _ <-. apply digits1_length in E. cbn in E. lia.
  - intros H; injection H as _ <-. cbn. lia.
Qed.

Lemma unsignedLit_length (s l rest : string) :
  unsignedLit s = Some (l, rest) -> String.length rest < String.length s.
Proof.
  unfold unsignedLit.
  destruct (intPart s) as [[i r1]|] eqn:E1; [|discriminate].
  destruct (fracPart r1) as [[f r2]|] eqn:E2; [|discriminate].
  destruct (expPart r2) as [[e r3]|] eqn:E3; [|discriminate].
  intros H; injection H as _ <-.
  apply intPart_length in E1. apply fracPart_length in E2. apply expPart_length in E3. lia.
Qed.

Lemma numberLit_length (s l rest : string) :
  numberLit s = Ok l rest -> String.length rest < String.length s.
Proof.
  destruct s as [|c s]; [discriminate|]. cbn [numberLit].
  destruct (Ascii.eqb c "-"%char).
  - destruct (unsignedLit s) as [[l' r]|] eqn:E; [|discriminate].
    intros H; injection H as _ <-. apply unsignedLit_length in E. cbn. lia.
  - destruct (unsignedLit (String c s)) as [[l' r]|] eqn:E; [|discriminate].
    intros H; injection H as _ <-. exact (unsignedLit_length _ _ _ E).
Qed.

Lemma numberLit_fuel (s : string) : numberLit s <> OutOfFuel.
Proof.
  destruct s as [|c s]; [discriminate|]. cbn [numberLit].
  destruct (Ascii.eqb c "-"%char); destruct (unsignedLit _) as [[l r]|]; discriminate.
Qed.

Lemma substring_length (n m : nat) (s : string) :
  String.length (String.substring n m s) <= m.
Proof.
  revert n m. induction s as [|c s IH]; intros n m.
  - destruct n, m; cbn; lia.
  - destruct n as [|n]; [destruct m as [|m]|]; cbn; [lia | | apply IH].
    specialize (IH 0 m). lia.
Qed.

Lemma word_length (w : string) (v v' : Value) (c : ascii) (s rest : string) :
  w <> EmptyString ->
  word w v (String c s) = Ok v' rest ->
  String.length rest < String.length (String c s).
Proof.
  intros Hw. unfold word. destruct (String.prefix w (String c s)); [|discriminate].
  intros H; injection H as _ <-.
  destruct w as [|a w]; [congruence|].
  eapply Nat.le_lt_trans; [apply substring_length|]. cbn [String.length]. lia.
Qed.

Lemma word_fuel (w : string) (v : Value) (s : string) : word w v s <> OutOfFuel.
Proof. unfold word. destruct (String.prefix w s); discriminate. Qed.

(** A scan that has enough fuel does not run out of it, and what it
    leaves unread is shorter than its input. *)
Lemma scan_progress (fuel : nat) :
  (forall s : string,
      2 * String.length s + 1 <= fuel ->
      match value fuel s with
      | Ok _ rest => String.length rest < String.length s
      | Invalid => True
      | OutOfFuel => False
      end)
  /\ (forall s : string,
         2 * String.length s + 2 <= fuel ->
         match elements fuel s with
         | Ok _ rest => String.length rest < String.length s
         | Invalid => True
         | OutOfFuel => False
         end)
  /\ (forall s : string,
         2 * String.length s + 2 <= fuel ->
         match members fuel s with
         | Ok _ rest => String.length rest < String.length s
         | Invalid => True
         | OutOfFuel => False
         end).
Proof.
  induction fuel as [|fuel (IHv & IHe & IHm)]; [repeat split; intros s H; lia|].
  split_and!; intros s Hf.
  - cbn [value]. pose proof (skipSpace_length s) as Hs.
    destruct (skipSpace s) as [|c r] eqn:Es; [exact I|]. cbn [String.length] in Hs.
    destruct (Ascii.eqb c "{"%char).
    { pose proof (skipSpace_length r) as Hr.
      destruct (skipSpace r) as [|c' r'] eqn:Er; [exact I|]. cbn [String.length] in Hr.
      destruct (Ascii.eqb c' "}"%char); [cbn; lia|].
      specialize (IHm (String c' r') ltac:(cbn [String.length]; lia)).
      destruct (members fuel (String c' r')); cbn in *; [lia | exact I | exact IHm]. }
    destruct (Ascii.eqb c "["%char).
    { pose proof (skipSpace_length r) as Hr.
      destruct (skipSpace r) as [|c' r'] eqn:Er; [exact I|]. cbn [String.length] in Hr.
      destruct (Ascii.eqb c' "]"%char); [cbn; lia|].
      specialize (IHe (String c' r') ltac:(cbn [String.length]; lia)).
      destruct (elements fuel (String c' r')); cbn in *; [lia | exact I | exact IHe]. }
    destruct (Ascii.eqb c quote).
    { pose proof (stringLit_length r) as Hl. pose proof (stringLit_fuel r) as Hq.
      destruct (stringLit r) as [str rest| |]; cbn;
        [specialize (Hl _ _ eq_refl); lia | exact I | congruence]. }
    destruct (Ascii.eqb c "t"%char).
    { pose proof (word_length "true" (Bool true)) as Hl.
      pose proof (word_fuel "true" (Bool true) (String c r)) as Hq.
      destruct (word "true" (Bool true) (String c r)) as [v rest| |] eqn:Ew; cbn;
        [apply Hl in Ew; [cbn in Ew; lia | discriminate] | exact I | congruence]. }
    destruct (Ascii.eqb c "f"%char).
    { pose proof (word_length "false" (Bool false)) as Hl.
      pose proof (word_fuel "false" (Bool false) (String c r)) as Hq.
      destruct (word "false" (Bool false) (String c r)) as [v rest| |] eqn:Ew; cbn;
        [apply Hl in Ew; [cbn in Ew; lia | discriminate] | exact I | congruence]. }
    destruct (Ascii.eqb c "n"%char).
    { pose proof (word_length "null" Null) as Hl.
      pose proof (word_fuel "null" Null (String c r)) as Hq.
      destruct (word "null" Null (String c r)) as [v rest| |] eqn:Ew; cbn;
        [apply Hl in Ew; [cbn in Ew; lia | discriminate] | exact I | congruence]. }
    destruct (Ascii.eqb c "-"%char || isDigit c); [|exact I].
    pose proof (numberLit_length (String c r)) as Hl.
    pose proof (numberLit_fuel (String c r)) as Hq.
    destruct (numberLit (String c r)) as [l rest| |]; cbn;
      [specialize (Hl _ _ eq_refl); cbn in Hl; lia | exact I | congruence].
  - cbn [elements]. specialize (IHv s ltac:(lia)).
    destruct (value fuel s) as [v r1| |]; cbn in IHv; [|exact I | exact IHv].
    pose proof (skipSpace_length r1) as Hs.
    destruct (skipSpace r1) as [|c r2]; [exact I|]. cbn [String.length] in Hs.
    destruct (Ascii.eqb c "]"%char); [cbn; lia|].
    destruct (Ascii.eqb c ","%char); [|exact I].
    specialize (IHe r2 ltac:(lia)).
    destruct (elements fuel r2); cbn in *; [lia | exact I | exact IHe].
  - cbn [members]. pose proof (skipSpace_length s) as Hs.
    destruct (skipSpace s) as [|q r0]; [exact I|]. cbn [String.length] in Hs.
    destruct (Ascii.eqb q quote); [|exact I].
    pose proof (stringLit_length r0) as Hl. pose proof (stringLit_fuel r0) as Hq.
    destruct (stringLit r0) as [key r1| |]; [|exact I | congruence].
    specialize (Hl _ _ eq_refl).
    pose proof (skipSpace_length r1) as Hs1.
    destruct (skipSpace r1) as [|c r2]; [exact I|]. cbn [String.length] in Hs1.
    destruct (Ascii.eqb c ":"%char); [|exact I].
    specialize (IHv r2 ltac:(lia)).
    destruct (value fuel r2) as [v r3| |]; cbn in IHv; [|exact I | exact IHv].
    pose proof (skipSpace_length r3) as Hs3.
    destruct (skipSpace r3) as [|d r4]; [exact I|]. cbn [String.length] in Hs3.
    destruct (Ascii.eqb d "}"%char); [cbn; lia|].
    destruct (Ascii.eqb d ","%char); [|exact I].
    specialize (IHm r4 ltac:(lia)).
    destruct (members fuel r4); cbn in *; [lia | exact I | exact IHm].
Qed.

End scan.

(** Storing never reports a syntax error. *)
Lemma storeMembers_no_syntax_error (name : string) (ms : list (string * json.Value))
  (cur : string) (saved : option json.Error) :
  saved <> Some json.SyntaxError ->
  fst (json.storeMembers name ms cur saved) <> Some json.SyntaxError.
Proof.
  revert cur saved. induction ms as [|[k v] ms IH]; intros cur saved Hs; [exact Hs|].
  cbn [json.storeMembers]. destruct (json.equalFold name k); [|now apply IH].
  destruct v; cbn [json.storeString]; try (now apply IH);
    apply IH; destruct saved as [e|]; cbn; congruence.
Qed.


(** ** More concrete runs *)


(** A DEL without a namespace: the three variables DEL requires are
    there. *)
Lemma extracted_request_is_complete_witness :
  ContainerID (run.args "{}") <> EmptyString
  /\ IfName (run.args "{}") <> EmptyString
  /\ Path (run.args "{}") <> EmptyString.
Proof.
  refine (proj2 (proj2 (extracted_request_is_complete
                          (run.disp (run.fullEnv "DEL")) (run.disp (run.fullEnv "DEL"))
                          (run.world "{}") (run.world EmptyString) "DEL" (run.args "{}") _))
            eq_refl).
  extracted.
Defined.

(** A DEL with the namespace and the arguments unset. *)
Lemma namespace_is_optional_for_delete_only_witness :
  let e := [ ("CNI_COMMAND", "DEL"); ("CNI_CONTAINERID", "c1"); ("CNI_IFNAME", "eth0");
             ("CNI_PATH", "/opt/cni/bin") ] in
  getCmdArgsFromEnv (run.disp e) (run.world "{}") =
  Returns
    (run.disp e,
     ("DEL",
      Some {| ContainerID := "c1"; Netns := EmptyString; IfName := "eth0";
              Args := EmptyString; Path := "/opt/cni/bin"; StdinData := "{}" |},
      None))
    (run.world EmptyString).
Proof.
  refine (proj1 (namespace_is_optional_for_delete_only
                   (run.disp [ ("CNI_COMMAND", "DEL"); ("CNI_CONTAINERID", "c1");
                               ("CNI_IFNAME", "eth0"); ("CNI_PATH", "/opt/cni/bin") ])
                   (run.world "{}") {| pending := "{}"; failure := None |} _ _ _ _ _ _)
            eq_refl);
    [ vm_compute; discriminate | vm_compute; discriminate | vm_compute; discriminate
    | reflexivity | reflexivity | reflexivity ].
Defined.

(** A second extraction after an ADD has been extracted. *)
Lemma second_extraction_reads_nothing_witness :
  getCmdArgsFromEnv (run.disp (run.fullEnv "ADD")) (run.world EmptyString) =
  Returns (run.disp (run.fullEnv "ADD"), ("ADD", Some (run.args EmptyString), None))
    (run.world EmptyString).
Proof.
  refine (second_extraction_reads_nothing
            (run.disp (run.fullEnv "ADD")) (run.disp (run.fullEnv "ADD"))
            (run.world (run.body "0.4.0")) (run.world EmptyString) "ADD"
            (run.args (run.body "0.4.0")) _ _);
    [extracted | discriminate].
Defined.

(** An ADD whose standard input breaks off: the about string is not
    printed and no handler is called. *)
Lemma stdin_failure_is_failed_io_witness :
  pluginMain (texts := run.texts) (run.disp (run.fullEnv "ADD")) (run.handler None)
    (run.handler None) (run.handler None) (run.info ["0.4.0"]) "CNI plugin"
    {| readers := [ {| pending := "{"; failure := Some "unexpected EOF" |} ];
       writers := [ EmptyString; EmptyString ];
       user := 0 |} =
  Returns
    (Some (NewError ErrFailedIO "error reading from stdin: unexpected EOF" EmptyString))
    {| readers := [ {| pending := EmptyString; failure := Some "unexpected EOF" |} ];
       writers := [ EmptyString; EmptyString ];
       user := 0 |}.
Proof.
  refine (stdin_failure_is_failed_io (texts := run.texts) (run.handler None) (run.handler None)
            (run.handler None) (run.info ["0.4.0"]) "CNI plugin"
            (run.disp (run.fullEnv "ADD"))
            {| readers := [ {| pending := "{"; failure := Some "unexpected EOF" |} ];
               writers := [ EmptyString; EmptyString ];
               user := 0 |}
            {| pending := "{"; failure := Some "unexpected EOF" |} "unexpected EOF" _ _ _ _);
    [ vm_compute; reflexivity | vm_compute; discriminate | reflexivity | reflexivity ].
Defined.

(** An ADD with only the command set and an about string: the error of
    the extraction is returned, the about string is not printed. *)
Lemma extraction_error_is_returned_witness :
  pluginMain (texts := run.texts) (run.disp [("CNI_COMMAND", "ADD")]) (run.handler None)
    (run.handler None) (run.handler None) (run.info ["0.4.0"]) "CNI plugin"
    (run.world "junk") =
  Returns
    (Some (NewError ErrMissingEnvironmentVariables
             "required env variables [CNI_CONTAINERID,CNI_NETNS,CNI_IFNAME,CNI_PATH] missing"
             EmptyString))
    (run.world "junk")
  /\ writers (run.world "junk") = writers (run.world "junk").
Proof.
  refine (extraction_error_is_returned (texts := run.texts) (run.handler None)
            (run.handler None) (run.handler None) (run.info ["0.4.0"]) "CNI plugin"
            (run.disp [("CNI_COMMAND", "ADD")]) (run.disp [("CNI_COMMAND", "ADD")])
            (run.world "junk") (run.world "junk") EmptyString None _ _ _);
    [ vm_compute; discriminate
    | refine (getCmdArgsFromEnv_fails _ _ "CNI_CONTAINERID"
                ["CNI_NETNS"; "CNI_IFNAME"; "CNI_PATH"] _);
      vm_compute; reflexivity ].
Defined.

(** A DEL whose handler fails with a plain error: the add and the check
    handlers are not called (one call is counted). *)
Lemma add_and_del_run_their_handler_witness :
  pluginMain (texts := run.texts) (run.disp (run.fullEnv "DEL")) (run.handler None)
    (run.handler None) (run.handler (Some (OtherError "busy"))) (run.info ["0.4.0"])
    EmptyString (run.world (run.body "0.4.0")) =
  Returns
    (Some (NewError ErrFailedPluginCall "busy" EmptyString))
    {| readers := [ {| pending := EmptyString; failure := None |} ];
       writers := [ EmptyString; EmptyString ];
       user := 1 |}.
Proof.
  refine (proj2 (add_and_del_run_their_handler (texts := run.texts) (run.handler None)
                   (run.handler None) (run.handler (Some (OtherError "busy")))
                   (run.info ["0.4.0"]) EmptyString
                   (run.disp (run.fullEnv "DEL")) (run.disp (run.fullEnv "DEL"))
                   (run.world (run.body "0.4.0")) (run.world EmptyString) "DEL"
                   (run.args (run.body "0.4.0")) "0.4.0" _ _ _ _)
            eq_refl);
    [extracted | vm_compute; reflexivity ..].
Defined.

(** An ADD that declares 0.5.0 to a plugin that supports 0.4.0. *)
Lemma add_and_del_check_the_version_first_witness :
  pluginMain (texts := run.texts) (run.disp (run.fullEnv "ADD")) (run.handler None)
    (run.handler None) (run.handler None) (run.info ["0.4.0"]) EmptyString
    (run.world (run.body "0.5.0")) =
  Returns
    (Some (NewError ErrIncompatibleCNIVersion "incompatible CNI versions"
             "config is 0.5.0, plugin supports 0.4.0"))
    (run.world EmptyString).
Proof.
  refine (proj2 (add_and_del_check_the_version_first (texts := run.texts) (run.handler None)
                   (run.handler None) (run.handler None) (run.info ["0.4.0"]) EmptyString
                   (run.disp (run.fullEnv "ADD")) (run.disp (run.fullEnv "ADD"))
                   (run.world (run.body "0.5.0")) (run.world EmptyString) "ADD"
                   (run.args (run.body "0.5.0")) _ _ _)
            "0.5.0" {| version.Details := "config is 0.5.0, plugin supports 0.4.0" |} _ _);
    [ extracted | vm_compute; reflexivity | left; reflexivity
    | vm_compute; reflexivity | vm_compute; reflexivity ].
Defined.

(** A VERSION with nothing else set and an encoder that fails. *)
Lemma version_request_encodes_witness :
  pluginMain (texts := run.texts) (run.disp [("CNI_COMMAND", "VERSION")]) (run.handler None)
    (run.handler None) (run.handler None)
    {| version.SupportedVersions := ["0.4.0"];
       version.Encode := fun _ => ret (Some "short write") |}
    EmptyString (run.world "junk") =
  Returns
    (Some (NewError ErrFailedEncode "short write" EmptyString))
    {| readers := [ {| pending := "junk"; failure := None |};
                    {| pending := EmptyString; failure := None |} ];
       writers := [ EmptyString; EmptyString ];
       user := 0 |}.
Proof.
  exact (version_request_encodes (texts := run.texts) (run.handler None) (run.handler None)
           (run.handler None)
           {| version.SupportedVersions := ["0.4.0"];
              version.Encode := fun _ => ret (Some "short write") |}
           EmptyString (run.disp [("CNI_COMMAND", "VERSION")]) (run.world "junk") eq_refl).
Defined.

(** A CHECK that declares 0.5.0 to a plugin that supports 0.4.0 and
    0.4.1. *)
Lemma check_no_supported_version_reaches_witness :
  pluginMain (texts := run.texts) (run.disp (run.fullEnv "CHECK")) (run.handler None)
    (run.handler None) (run.handler None) (run.info ["0.4.0"; "0.4.1"]) EmptyString
    (run.world (run.body "0.5.0")) =
  Returns
    (Some (NewError ErrIncompatibleCNIVersion "plugin version does not allow CHECK"
             EmptyString))
    (run.world EmptyString).
Proof.
  refine (check_no_supported_version_reaches (texts := run.texts) (run.handler None)
            (run.handler None) (run.handler None) (run.info ["0.4.0"; "0.4.1"]) EmptyString
            (run.disp (run.fullEnv "CHECK")) (run.disp (run.fullEnv "CHECK"))
            (run.world (run.body "0.5.0")) (run.world EmptyString)
            (run.args (run.body "0.5.0")) "0.5.0" _ _ _ _ _);
    [ extracted | vm_compute; reflexivity | vm_compute; reflexivity | vm_compute; reflexivity
    | repeat constructor ].
Defined.

(** A CHECK that declares the version 1.0, which has two parts only. *)
Lemma check_undecodable_version_witness :
  pluginMain (texts := run.texts) (run.disp (run.fullEnv "CHECK")) (run.handler None)
    (run.handler None) (run.handler None) (run.info ["0.4.0"]) EmptyString
    (run.world (run.body "1.0")) =
  Returns
    (Some (NewError ErrFailedDecode "invalid version: 1.0" EmptyString))
    (run.world EmptyString).
Proof.
  refine (proj2 (check_undecodable_version (texts := run.texts) (run.handler None)
                   (run.handler None) (run.handler None) (run.info ["0.4.0"]) EmptyString
                   (run.disp (run.fullEnv "CHECK")) (run.disp (run.fullEnv "CHECK"))
                   (run.world (run.body "1.0")) (run.world EmptyString)
                   (run.args (run.body "1.0")) _ _)
            "1.0" _ _);
    [extracted | vm_compute; reflexivity ..].
Defined.




(** The command FROB, nothing else set, a valid configuration. *)
Lemma unrecognised_command_always_fails_witness :
  exists e : Error,
    pluginMain (texts := run.texts) (run.disp [("CNI_COMMAND", "FROB")]) (run.handler None)
      (run.handler None) (run.handler None) (run.info ["0.4.0"]) EmptyString
      (run.world (run.body "0.4.0")) =
    Returns (Some e) (run.world EmptyString)
    /\ (Code e = ErrFailedDecode \/ Code e = ErrInvalidNetworkConfig
        \/ (validateConfig (texts := run.texts) (run.body "0.4.0") = None
            /\ e = NewError ErrUnknownCommand "unknown CNI_COMMAND: FROB" EmptyString)).
Proof.
  refine (unrecognised_command_always_fails (texts := run.texts) (run.handler None)
            (run.handler None) (run.handler None) (run.info ["0.4.0"]) EmptyString
            (run.disp [("CNI_COMMAND", "FROB")]) (run.world (run.body "0.4.0"))
            {| pending := run.body "0.4.0"; failure := None |} _ _ _ _ _ _ _);
    [ vm_compute; discriminate | vm_compute; discriminate | vm_compute; discriminate
    | vm_compute; discriminate | vm_compute; discriminate | reflexivity | reflexivity ].
Defined.

(** A successful ADD. *)
Lemma success_means_the_handler_succeeded_witness :
  let t := run.disp (run.fullEnv "ADD") in
  let w'' := {| readers := [ {| pending := EmptyString; failure := None |} ];
                writers := [ EmptyString; EmptyString ];
                user := 1 |} in
  exists (a : CmdArgs) (w' : World nat) (cv : string),
    getCmdArgsFromEnv t (run.world (run.body "0.4.0")) =
    Returns (t, (Getenv t "CNI_COMMAND", Some a, None)) w'
    /\ spec.missing (Getenv t) = []
    /\ validateConfig (texts := run.texts) (StdinData a) = None
    /\ version.Decode (ConfVersionDecoder t) (StdinData a) = inr cv
    /\ version.Check (VersionReconciler t) cv (run.info ["0.4.0"]) = None
    /\ let h := if String.eqb (Getenv t "CNI_COMMAND") "ADD"
                then run.handler None else run.handler None in
       h a w' = Returns None w'' \/ h a w' = Returns (Some (TypesError None)) w''.
Proof.
  refine (success_means_the_handler_succeeded (texts := run.texts) (run.handler None)
            (run.handler None) (run.handler None) (run.info ["0.4.0"]) EmptyString
            (run.disp (run.fullEnv "ADD")) (run.world (run.body "0.4.0"))
            {| readers := [ {| pending := EmptyString; failure := None |} ];
               writers := [ EmptyString; EmptyString ];
               user := 1 |} _ _);
    [left; reflexivity | vm_compute; reflexivity].
Defined.

(** The configuration [{"name":"net","cniVersion":"0.4.0"}]. *)
Lemma validateConfig_accepted_has_name_witness :
  exists (ms : list (string * json.Value)) (rest k s : string),
    json.parse (run.body "0.4.0") = json.Ok (json.Object ms) rest
    /\ In (k, json.Str s) ms
    /\ json.equalFold "name" k = true
    /\ s <> EmptyString.
Proof.
  refine (validateConfig_accepted_has_name (texts := run.texts) (run.body "0.4.0") _).
  vm_compute; reflexivity.
Defined.

(** A successful CHECK of 0.4.0 by a plugin that supports 0.3.0 and
    0.4.0. *)
Lemma successful_check_passed_every_test_witness :
  let t := run.disp (run.fullEnv "CHECK") in
  let w'' := {| readers := [ {| pending := EmptyString; failure := None |} ];
                writers := [ EmptyString; EmptyString ];
                user := 1 |} in
  exists (a : CmdArgs) (w' : World nat) (cv v : string),
    getCmdArgsFromEnv t (run.world (run.body "0.4.0")) =
    Returns (t, ("CHECK", Some a, None)) w'
    /\ validateConfig (texts := run.texts) (StdinData a) = None
    /\ version.Decode (ConfVersionDecoder t) (StdinData a) = inr cv
    /\ version.GreaterThanOrEqualTo (texts := run.texts) cv "0.4.0" = inr true
    /\ In v (version.SupportedVersions (run.info ["0.3.0"; "0.4.0"]))
    /\ version.GreaterThanOrEqualTo (texts := run.texts) v cv = inr true
    /\ version.Check (VersionReconciler t) cv (run.info ["0.3.0"; "0.4.0"]) = None
    /\ (run.handler None a w' = Returns None w''
        \/ run.handler None a w' = Returns (Some (TypesError None)) w'').
Proof.
  refine (successful_check_passed_every_test (texts := run.texts) (run.handler None)
            (run.handler None) (run.handler None) (run.info ["0.3.0"; "0.4.0"]) EmptyString
            (run.disp (run.fullEnv "CHECK")) (run.world (run.body "0.4.0"))
            {| readers := [ {| pending := EmptyString; failure := None |} ];
               writers := [ EmptyString; EmptyString ];
               user := 1 |} _ _);
    [reflexivity | vm_compute; reflexivity].
Defined.
